(** * Trading strategy backtester: model and verification

    A shallow embedding of [src/backtester.py] (class [Backtester]) and the
    properties its specification states about it.

    Numbers.  The program computes with IEEE doubles (Python floats and numpy
    scalars).  The model computes with exact rationals in canonical form
    ([Qc]): every statement below is about the arithmetic the formulas
    denote, not about rounding.  Comparisons are comparisons of values, as in
    Python ([1 == 1.0]).  Where numpy would produce [inf] or [nan] in the
    statistics (a zero divisor, a standard deviation of one sample) the model
    says so explicitly through the type [metric]; inside the bar loop the
    model is exact whenever no entry price is zero, which is the only divisor
    the loop has.

    Time.  A parsed timestamp ([%d-%m-%Y %H:%M]) is a number of minutes; the
    calendar date of a timestamp is its quotient by 1440.  Rows whose
    timestamp fails to parse (NaT) are outside the model. *)

From Stdlib Require Import ZArith QArith Qcanon Qcabs List Bool Lia.
From Stdlib Require Import Permutation Sorted Lra Psatz.
Import ListNotations.

Open Scope Qc_scope.

(** ** Numbers *)

Definition qc (n : Z) (d : positive) : Qc := Q2Qc (n # d).

Definition Qc_ltb (x y : Qc) : bool :=
  match x ?= y with Lt => true | _ => false end.

Definition Qc_neqb (x y : Qc) : bool := negb (Qc_eq_bool x y).

(** Python's [sum]: the items are added from the left, starting at 0. *)
Definition Qc_sum (l : list Qc) : Qc := fold_left Qcplus l 0.

(** ** Data *)

(** What [current_time] can be: a parsed timestamp when the frame has the
    datetime column, the row number [i] otherwise (line 61). *)
Inductive Time : Type :=
| Timestamp (minutes : Z)
| RowIndex (i : nat).

(** [Timestamp.date()] *)
Definition date_of (minutes : Z) : Z := (minutes / 1440)%Z.

(** One row of the input frame: the columns [datetime_col], [price_col] and
    [signal_col].  When the frame has no datetime column the field
    [datetime] is not read. *)
Module Bar.
Record t : Type := mk { datetime : Z; close : Qc; signal : Qc }.
End Bar.

Inductive PositionType : Type := LONG | SHORT.

(** The dictionary appended to [trades] (lines 107-117 and 156-166). *)
Module Trade.
Record t : Type := mk {
  entry_time : Time;
  exit_time : Time;
  entry_price : Qc;
  exit_price : Qc;
  position_type : PositionType;
  position_size : Qc;
  pnl : Qc;
  transaction_cost : Qc;
  net_pnl : Qc
}.
End Trade.

(** The dictionary appended to [equity_curve] (lines 75-81). *)
Module Snapshot.
Record t : Type := mk {
  datetime : Time;
  equity : Qc;
  price : Qc;
  signal : Qc;
  position : Qc
}.
End Snapshot.

(** [Backtester.__init__] *)
Record Backtester : Type := {
  initial_capital : Qc;
  transaction_cost_pct : Qc
}.

(** The local variables of [run_backtest] (lines 47-56).  [entry_time] is
    unbound in Python until the first position is opened and is read only
    while a position is open; the model starts it at row 0. *)
Record State : Type := {
  capital : Qc;
  position : Qc;
  entry_price : Qc;
  entry_time : Time;
  position_value : Qc;
  trades : list Trade.t;
  daily_pnl : list (Z * Qc);
  equity_curve : list Snapshot.t;
  transaction_costs : list Qc
}.

Definition init_state (bt : Backtester) : State :=
  {| capital := initial_capital bt;
     position := 0;
     entry_price := 0;
     entry_time := RowIndex 0;
     position_value := 0;
     trades := [];
     daily_pnl := [];
     equity_curve := [];
     transaction_costs := [] |}.

(** ** The bar loop *)

(** [daily_pnl[date] += v], inserting the key with 0 first when it is new
    (lines 121-123).  The dictionary keeps insertion order, as Python's. *)
Fixpoint dict_add (d : list (Z * Qc)) (k : Z) (v : Qc) : list (Z * Qc) :=
  match d with
  | [] => [(k, 0 + v)]
  | (k', x) :: r =>
      if Z.eqb k k' then (k', x + v) :: r else (k', x) :: dict_add r k v
  end.

(** The profit of the open position marked at [price]: the expression the
    source writes out three times (lines 66-69, 94-97 and 147-150). *)
Definition position_pnl (s : State) (price : Qc) : Qc :=
  if Qc_ltb 0 (position s)
  then position_value s * (price / entry_price s - 1)
  else position_value s * (1 - price / entry_price s).

Definition exit_cost_of (bt : Backtester) (s : State) : Qc :=
  Qcabs (position_value s) * transaction_cost_pct bt.

(** Lines 94-123, and again 147-171: realise the profit, charge the exit
    cost, record the trade and the day's profit. *)
Definition realize (bt : Backtester) (s : State)
    (price : Qc) (time : Time) (date : option Z) : State :=
  let pnl := position_pnl s price in
  let exit_cost := exit_cost_of bt s in
  {| capital := capital s + (pnl - exit_cost);
     position := position s;
     entry_price := entry_price s;
     entry_time := entry_time s;
     position_value := position_value s;
     trades := trades s ++
       [ {| Trade.entry_time := entry_time s;
            Trade.exit_time := time;
            Trade.entry_price := entry_price s;
            Trade.exit_price := price;
            Trade.position_type :=
              if Qc_ltb 0 (position s) then LONG else SHORT;
            Trade.position_size := Qcabs (position s);
            Trade.pnl := pnl;
            Trade.transaction_cost := exit_cost;
            Trade.net_pnl := pnl - exit_cost |} ];
     daily_pnl :=
       match date with
       | Some d => dict_add (daily_pnl s) d (pnl - exit_cost)
       | None => daily_pnl s
       end;
     equity_curve := equity_curve s;
     transaction_costs := transaction_costs s ++ [exit_cost] |}.

(** Lines 125-127. *)
Definition reset_position (s : State) : State :=
  {| capital := capital s;
     position := 0;
     entry_price := entry_price s;
     entry_time := entry_time s;
     position_value := 0;
     trades := trades s;
     daily_pnl := daily_pnl s;
     equity_curve := equity_curve s;
     transaction_costs := transaction_costs s |}.

(** Lines 93-127. *)
Definition close_position (bt : Backtester) (s : State)
    (price : Qc) (time : Time) (date : option Z) : State :=
  reset_position (realize bt s price time date).

(** Lines 130-139. *)
Definition open_position (bt : Backtester) (s : State)
    (new_position price : Qc) (time : Time) : State :=
  let value := capital s * Qcabs new_position in
  let entry_cost := value * transaction_cost_pct bt in
  {| capital := capital s - entry_cost;
     position := new_position;
     entry_price := price;
     entry_time := time;
     position_value := value;
     trades := trades s;
     daily_pnl := daily_pnl s;
     equity_curve := equity_curve s;
     transaction_costs := transaction_costs s ++ [entry_cost] |}.

(** Lines 64-81. *)
Definition current_equity (s : State) (price : Qc) : Qc :=
  if Qc_neqb (position s) 0
  then capital s + position_pnl s price
  else capital s.

Definition record_equity (s : State) (time : Time) (b : Bar.t) : State :=
  {| capital := capital s;
     position := position s;
     entry_price := entry_price s;
     entry_time := entry_time s;
     position_value := position_value s;
     trades := trades s;
     daily_pnl := daily_pnl s;
     equity_curve := equity_curve s ++
       [ {| Snapshot.datetime := time;
            Snapshot.equity := current_equity s (Bar.close b);
            Snapshot.price := Bar.close b;
            Snapshot.signal := Bar.signal b;
            Snapshot.position := position s |} ];
     transaction_costs := transaction_costs s |}.

Definition time_of (has_datetime : bool) (i : nat) (b : Bar.t) : Time :=
  if has_datetime then Timestamp (Bar.datetime b) else RowIndex i.

Definition day_of (has_datetime : bool) (b : Bar.t) : option Z :=
  if has_datetime then Some (date_of (Bar.datetime b)) else None.

(** Lines 92-127: the position held, if any, is closed at the row's
    price. *)
Definition settle (bt : Backtester) (has_datetime : bool)
    (s : State) (i : nat) (b : Bar.t) : State :=
  if Qc_neqb (position s) 0
  then close_position bt s (Bar.close b)
         (time_of has_datetime i b) (day_of has_datetime b)
  else s.

(** Lines 91-139: the trade executed when the signal differs from the
    position held. *)
Definition execute (bt : Backtester) (has_datetime : bool)
    (s : State) (i : nat) (b : Bar.t) : State :=
  let new_position := Bar.signal b in
  if Qc_neqb new_position (position s) then
    let s1 := settle bt has_datetime s i b in
    if Qc_neqb new_position 0
    then open_position bt s1 new_position (Bar.close b)
           (time_of has_datetime i b)
    else s1
  else s.

(** One iteration of the loop of line 58, at row [i]. *)
Definition step (bt : Backtester) (has_datetime : bool)
    (s : State) (i : nat) (b : Bar.t) : State :=
  execute bt has_datetime
    (record_equity s (time_of has_datetime i b) b) i b.

(** The loop of line 58 from row [i] on. *)
Fixpoint run_loop (bt : Backtester) (has_datetime : bool)
    (s : State) (i : nat) (df : list Bar.t) : State :=
  match df with
  | [] => s
  | b :: rest => run_loop bt has_datetime (step bt has_datetime s i b) (S i) rest
  end.

Fixpoint last_row (df : list Bar.t) : option Bar.t :=
  match df with
  | [] => None
  | b :: rest =>
      match rest with
      | [] => Some b
      | _ :: _ => last_row rest
      end
  end.

(** Lines 141-171: the position still open after the last row is closed at
    the last row's price. *)
Definition close_remaining (bt : Backtester) (has_datetime : bool)
    (s : State) (df : list Bar.t) : State :=
  if Qc_neqb (position s) 0 then
    match last_row df with
    | Some b =>
        realize bt s (Bar.close b)
          (time_of has_datetime (length df - 1) b) (day_of has_datetime b)
    | None => s
    end
  else s.

(** Lines 46-171: the simulation over the rows in the order of [df]. *)
Definition simulate (bt : Backtester) (has_datetime : bool)
    (df : list Bar.t) : State :=
  close_remaining bt has_datetime
    (run_loop bt has_datetime (init_state bt) 0 df) df.

(** Line 44, [df.sort_values(datetime_col)]: ascending by timestamp.  The
    model is a stable insertion sort.  The facts proved about it below hold
    of every sort: the result is an ascending permutation of the frame, and
    is the frame itself when its timestamps already ascend strictly. *)
Fixpoint insert_row (b : Bar.t) (l : list Bar.t) : list Bar.t :=
  match l with
  | [] => [b]
  | c :: r =>
      if (Bar.datetime b <=? Bar.datetime c)%Z
      then b :: c :: r
      else c :: insert_row b r
  end.

Fixpoint sort_values (df : list Bar.t) : list Bar.t :=
  match df with
  | [] => []
  | b :: r => insert_row b (sort_values r)
  end.

(** ** Statistics *)

(** A value of the statistics.  [Exact q] is the finite number [q].
    [PosInf], [NegInf] and [NaN] are what numpy division and pandas
    reductions return in place of a finite number.  The last three
    constructors stand for finite-or-not values that are not rational
    functions of the inputs and are kept as written:
    [CagrOf r y] is [(pow(r, 1/y) - 1) * 100],
    [SharpeOf m v] is [m / sqrt(v) * sqrt(252)] and
    [CalmarOf c d] is [abs(c / d)]. *)
Inductive metric : Type :=
| Exact (q : Qc)
| PosInf
| NegInf
| NaN
| CagrOf (ratio : metric) (years : Qc)
| SharpeOf (mean var : Qc)
| CalmarOf (cagr mdd : metric).

(** Division of numpy scalars and of pandas columns: a zero divisor gives
    [nan] or a signed infinity (with a warning), never an exception. *)
Definition np_div (a b : Qc) : metric :=
  if Qc_eq_bool b 0 then
    if Qc_eq_bool a 0 then NaN
    else if Qc_ltb 0 a then PosInf else NegInf
  else Exact (a / b).

(** An increasing affine map ([x - 1], [x * 100], [x / years] with
    [years > 0]) applied to a value that may be infinite or [nan]. *)
Definition m_lift (f : Qc -> Qc) (m : metric) : metric :=
  match m with
  | Exact q => Exact (f q)
  | other => other
  end.

Definition is_nan (m : metric) : bool :=
  match m with NaN => true | _ => false end.

(** [m < 0] for a value that is finite, infinite or [nan] (line 282);
    comparisons with [nan] are false. *)
Definition m_negative (m : metric) : bool :=
  match m with
  | Exact q => Qc_ltb q 0
  | NegInf => true
  | _ => false
  end.

Definition Qc_max (x y : Qc) : Qc := if Qc_ltb x y then y else x.
Definition Qc_min (x y : Qc) : Qc := if Qc_ltb y x then y else x.

(** [max] and [min] of a list that the caller has checked to be non-empty;
    the value on the empty list is never used. *)
Definition Qc_maximum (l : list Qc) : Qc :=
  match l with
  | [] => 0
  | x :: r => fold_left Qc_max r x
  end.

Definition Qc_minimum (l : list Qc) : Qc :=
  match l with
  | [] => 0
  | x :: r => fold_left Qc_min r x
  end.

Definition Qc_of_nat (n : nat) : Qc := Q2Qc (inject_Z (Z.of_nat n)).
Definition Qc_of_Z (n : Z) : Qc := Q2Qc (inject_Z n).

(** [Series.mean()] of a non-empty column of finite numbers. *)
Definition mean (l : list Qc) : Qc := Qc_sum l / Qc_of_nat (length l).

(** The square of [Series.std()] (sample variance, [ddof = 1]) of a column
    of at least two finite numbers. *)
Definition sample_var (l : list Qc) : Qc :=
  let m := mean l in
  Qc_sum (map (fun x => (x - m) * (x - m)) l) / Qc_of_nat (length l - 1).

(** [equity.pct_change()]: [nan] in the first row, then
    [equity[i] / equity[i-1] - 1]. *)
Fixpoint pct_change_from (prev : Qc) (l : list Qc) : list metric :=
  match l with
  | [] => []
  | x :: r => m_lift (fun q => q - 1) (np_div x prev) :: pct_change_from x r
  end.

Definition pct_change (l : list Qc) : list metric :=
  match l with
  | [] => []
  | x :: r => NaN :: pct_change_from x r
  end.

Definition dropna (l : list metric) : list metric :=
  filter (fun m => negb (is_nan m)) l.

(** The finite entries of a column, or [None] when an entry is infinite. *)
Fixpoint finite_values (l : list metric) : option (list Qc) :=
  match l with
  | [] => Some []
  | Exact q :: r =>
      match finite_values r with
      | Some qs => Some (q :: qs)
      | None => None
      end
  | _ :: _ => None
  end.

(** Lines 271-274.  [daily_returns.std()] is [nan] when the column has a
    single entry (the sample variance divides by [n - 1]) and when it has
    an infinite entry; [nan != 0] is true in Python, so both cases take the
    first branch and the ratio is [nan]. *)
Definition sharpe_of (daily_returns : list metric) : metric :=
  match daily_returns with
  | [] => Exact 0
  | _ :: _ =>
      match finite_values daily_returns with
      | None => NaN
      | Some qs =>
          if (length qs <=? 1)%nat then NaN
          else if Qc_neqb (sample_var qs) 0
               then SharpeOf (mean qs) (sample_var qs)
               else Exact 0
      end
  end.

(** [equity.cummax()] *)
Fixpoint cummax_from (m : Qc) (l : list Qc) : list Qc :=
  match l with
  | [] => []
  | x :: r => Qc_max m x :: cummax_from (Qc_max m x) r
  end.

Definition cummax (l : list Qc) : list Qc :=
  match l with
  | [] => []
  | x :: r => x :: cummax_from x r
  end.

(** Line 278, row by row. *)
Definition drawdown_of (e m : Qc) : metric :=
  m_lift (fun q => q * qc 100 1) (np_div (e - m) m).

Fixpoint zip_with {A B C : Type} (f : A -> B -> C)
    (l : list A) (l' : list B) : list C :=
  match l, l' with
  | x :: r, y :: r' => f x y :: zip_with f r r'
  | _, _ => []
  end.

(** The smaller of two values, [nan] being skipped ([Series.min()]). *)
Definition m_min (a b : metric) : metric :=
  match a, b with
  | NaN, _ => b
  | _, NaN => a
  | NegInf, _ => NegInf
  | _, NegInf => NegInf
  | PosInf, _ => b
  | _, PosInf => a
  | Exact x, Exact y => Exact (Qc_min x y)
  | _, _ => a
  end.

Definition m_minimum (l : list metric) : metric := fold_left m_min l NaN.

(** What can go wrong in a run: the exceptions pandas and Python raise on
    the paths the model covers. *)
Inductive exn : Type :=
| KeyError
| AttributeError
| ZeroDivisionError.

Inductive result (A : Type) : Type :=
| Ok (a : A)
| Err (e : exn).
Arguments Ok {A} a.
Arguments Err {A} e.

Definition bind {A B : Type} (r : result A) (k : A -> result B) : result B :=
  match r with
  | Ok a => k a
  | Err e => Err e
  end.

Notation "'do' x <- r ; k" := (bind r (fun x => k))
  (at level 10, x name, r at level 100, k at level 200).

(** Line 212: [(exit_time - entry_time).dt.total_seconds()].  The [.dt]
    accessor exists only on a column of time differences; on the integer
    column obtained from row numbers pandas raises [AttributeError]. *)
Definition hold_period (t : Trade.t) : result Qc :=
  match Trade.entry_time t, Trade.exit_time t with
  | Timestamp a, Timestamp b => Ok (Qc_of_Z ((b - a) * 60))
  | _, _ => Err AttributeError
  end.

Fixpoint hold_periods (l : list Trade.t) : result (list Qc) :=
  match l with
  | [] => Ok []
  | t :: r =>
      do h <- hold_period t;
      do hs <- hold_periods r;
      Ok (h :: hs)
  end.

(** A row of [equity_df] as returned: the snapshot and the three columns
    added by lines 268, 277 and 278. *)
Module EquityRow.
Record t : Type := mk {
  snapshot : Snapshot.t;
  returns : metric;
  cummax : Qc;
  drawdown : metric
}.
End EquityRow.

Fixpoint equity_rows (l : list Snapshot.t) (rs : list metric)
    (ms : list Qc) (ds : list metric) : list EquityRow.t :=
  match l, rs, ms, ds with
  | s :: l', r :: rs', m :: ms', d :: ds' =>
      EquityRow.mk s r m d :: equity_rows l' rs' ms' ds'
  | _, _, _, _ => []
  end.

(** The dictionary returned by [_calculate_statistics] (lines 288-319). *)
Module Results.
Record t : Type := mk {
  initial_capital : Qc;
  final_capital : Qc;
  total_pnl : Qc;
  total_transaction_cost : Qc;
  penalty_counts : nat;
  final_returns : metric;
  cagr : metric;
  annualized_returns : metric;
  sharpe_ratio : metric;
  calmar_ratio : metric;
  max_drawdown : metric;
  n_days : Z;
  winning_days : nat;
  losing_days : nat;
  best_day : nat;
  worst_day : nat;
  best_day_pnl : Qc;
  worst_day_pnl : Qc;
  total_trades : nat;
  winning_trades : nat;
  losing_trades : nat;
  win_rate : Qc;
  avg_winning_trade : Qc;
  avg_losing_trade : Qc;
  avg_hold_seconds : Qc;
  avg_hold_minutes : Qc;
  best_trade : Qc;
  worst_trade : Qc;
  trades_df : list Trade.t;
  equity_curve : list EquityRow.t
}.
End Results.

Definition count_if {A : Type} (f : A -> bool) (l : list A) : nat :=
  length (filter f l).

Definition column_min (l : list Z) : option Z :=
  match l with
  | [] => None
  | x :: r => Some (fold_left Z.min r x)
  end.

Definition column_max (l : list Z) : option Z :=
  match l with
  | [] => None
  | x :: r => Some (fold_left Z.max r x)
  end.

(** Lines 248-251.  [(end_date - start_date).days] is the whole number of
    days in the difference. *)
Definition calendar_days (start_date end_date : option Z) (n_days : nat) : Z :=
  match start_date, end_date with
  | Some a, Some b => ((b - a) / 1440 + 1)%Z
  | _, _ => Z.of_nat n_days
  end.

(** Line 254: [n_calendar_days / 365.25]. *)
Definition years_of (n_calendar_days : Z) : Qc :=
  Qc_of_Z n_calendar_days / qc 1461 4.

(** [_calculate_statistics] (lines 186-321).

    Line 245 divides by [self.initial_capital].  As long as no position has
    been opened, [final_capital] is the very number the constructor
    received, and Python numbers raise [ZeroDivisionError] on a zero
    divisor; from the first opening on (lines 132-139) [capital] is a numpy
    scalar, whose division returns [nan] or an infinity.  A position has
    been opened exactly when [transaction_costs] is not empty.

    Line 268 reads the column ['equity'] of [pd.DataFrame(equity_curve)];
    the frame built from an empty list has no columns and pandas raises
    [KeyError]. *)
Definition _calculate_statistics (bt : Backtester) (final_capital : Qc)
    (trades : list Trade.t) (daily_pnl : list (Z * Qc))
    (equity_curve : list Snapshot.t) (transaction_costs : list Qc)
    (start_date end_date : option Z) : result Results.t :=
  let total_pnl := final_capital - initial_capital bt in
  let total_transaction_cost := Qc_sum transaction_costs in
  (* trade statistics *)
  let n_trades := length trades in
  let net := map Trade.net_pnl trades in
  let winning_trades := filter (fun x => Qc_ltb 0 x) net in
  let losing_trades := filter (fun x => Qc_ltb x 0) net in
  let n_winning := length winning_trades in
  let n_losing := length losing_trades in
  let win_rate :=
    if (0 <? n_trades)%nat
    then Qc_of_nat n_winning / Qc_of_nat n_trades * qc 100 1 else 0 in
  let avg_win := if (0 <? n_winning)%nat then mean winning_trades else 0 in
  let avg_loss := if (0 <? n_losing)%nat then mean losing_trades else 0 in
  let best_trade := if (0 <? n_trades)%nat then Qc_maximum net else 0 in
  let worst_trade := if (0 <? n_trades)%nat then Qc_minimum net else 0 in
  do avg_hold_seconds <-
    (if (0 <? n_trades)%nat
     then (do hs <- hold_periods trades; Ok (mean hs))
     else Ok 0);
  let avg_hold_minutes := avg_hold_seconds / qc 60 1 in
  (* daily statistics *)
  let daily_pnl_values := map snd daily_pnl in
  let n_days := length daily_pnl_values in
  let winning_days := count_if (fun x => Qc_ltb 0 x) daily_pnl_values in
  let losing_days := count_if (fun x => Qc_ltb x 0) daily_pnl_values in
  let best_day_pnl :=
    if (0 <? n_days)%nat then Qc_maximum daily_pnl_values else 0 in
  let worst_day_pnl :=
    if (0 <? n_days)%nat then Qc_minimum daily_pnl_values else 0 in
  (* returns *)
  if Qc_eq_bool (initial_capital bt) 0 && (length transaction_costs =? 0)%nat
  then Err ZeroDivisionError
  else
  let final_returns :=
    m_lift (fun q => q * qc 100 1)
      (np_div (final_capital - initial_capital bt) (initial_capital bt)) in
  let n_calendar_days := calendar_days start_date end_date n_days in
  let years := years_of n_calendar_days in
  let ratio := np_div final_capital (initial_capital bt) in
  let cagr := if Qc_ltb 0 years then CagrOf ratio years else Exact 0 in
  let annualized_returns :=
    if Qc_ltb 0 years
    then m_lift (fun q => (q - 1) / years * qc 100 1) ratio
    else Exact 0 in
  (* Sharpe ratio *)
  match equity_curve with
  | [] => Err KeyError
  | _ :: _ =>
  let equity := map Snapshot.equity equity_curve in
  let returns := pct_change equity in
  let daily_returns := dropna returns in
  let sharpe_ratio := sharpe_of daily_returns in
  (* maximum drawdown *)
  let running_max := cummax equity in
  let drawdown := zip_with drawdown_of equity running_max in
  let max_drawdown := m_minimum drawdown in
  let calmar_ratio :=
    if m_negative max_drawdown then CalmarOf cagr max_drawdown else Exact 0 in
  Ok {| Results.initial_capital := initial_capital bt;
        Results.final_capital := final_capital;
        Results.total_pnl := total_pnl;
        Results.total_transaction_cost := total_transaction_cost;
        Results.penalty_counts := 0;
        Results.final_returns := final_returns;
        Results.cagr := cagr;
        Results.annualized_returns := annualized_returns;
        Results.sharpe_ratio := sharpe_ratio;
        Results.calmar_ratio := calmar_ratio;
        Results.max_drawdown := max_drawdown;
        Results.n_days := n_calendar_days;
        Results.winning_days := winning_days;
        Results.losing_days := losing_days;
        Results.best_day := winning_days;
        Results.worst_day := losing_days;
        Results.best_day_pnl := best_day_pnl;
        Results.worst_day_pnl := worst_day_pnl;
        Results.total_trades := n_trades;
        Results.winning_trades := n_winning;
        Results.losing_trades := n_losing;
        Results.win_rate := win_rate;
        Results.avg_winning_trade := avg_win;
        Results.avg_losing_trade := avg_loss;
        Results.avg_hold_seconds := avg_hold_seconds;
        Results.avg_hold_minutes := avg_hold_minutes;
        Results.best_trade := best_trade;
        Results.worst_trade := worst_trade;
        Results.trades_df := trades;
        Results.equity_curve :=
          equity_rows equity_curve returns running_max drawdown |}
  end.

(** The frame the loop runs over (lines 42-44). *)
Definition frame (has_datetime : bool) (data : list Bar.t) : list Bar.t :=
  if has_datetime then sort_values data else data.

(** [run_backtest] (lines 20-184).  [has_datetime] says whether
    [datetime_col] is a column of [data]; when it is, the rows are sorted by
    it before the loop (line 44). *)
Definition run_backtest (bt : Backtester) (has_datetime : bool)
    (data : list Bar.t) : result Results.t :=
  let df := frame has_datetime data in
  let s := simulate bt has_datetime df in
  let stamps := if has_datetime then map Bar.datetime df else [] in
  _calculate_statistics bt (capital s) (trades s) (daily_pnl s)
    (equity_curve s) (transaction_costs s)
    (column_min stamps) (column_max stamps).

(** ** Inputs the specification calls valid *)

Definition valid_rate (bt : Backtester) : Prop :=
  0 <= transaction_cost_pct bt /\ transaction_cost_pct bt < 1.

Definition valid_bars (df : list Bar.t) : Prop :=
  df <> [] /\ Forall (fun b => 0 < Bar.close b) df.

(** ** Vocabulary of the statements *)

(** The net profit recorded in the ledger, and the entry costs: the costs
    charged in total less the exit costs, which are the ones the trades
    record (lines 115 and 164). *)
Definition ledger_net (tr : list Trade.t) : Qc :=
  Qc_sum (map Trade.net_pnl tr).

Definition ledger_cost (tr : list Trade.t) : Qc :=
  Qc_sum (map Trade.transaction_cost tr).

Definition entry_costs (s : State) : Qc :=
  Qc_sum (transaction_costs s) - ledger_cost (trades s).

Definition accounted (bt : Backtester) (s : State) : Prop :=
  ledger_net (trades s) - entry_costs s = capital s - initial_capital bt.

Definition free_of_cost (s : State) : Prop :=
  Qc_sum (transaction_costs s) = 0 /\ ledger_cost (trades s) = 0.

(** The state in which row [b], met at row number [i] in state [s], opens a
    position: the equity is recorded and the position held, if any, is
    closed.  Its capital is the capital held at entry time. *)
Definition at_entry (bt : Backtester) (has_datetime : bool)
    (s : State) (i : nat) (b : Bar.t) : State :=
  settle bt has_datetime
    (record_equity s (time_of has_datetime i b) b) i b.

(** The position held in [s], reached after the rows [pre], was opened by
    one of these rows and nothing has touched it since. *)
Definition opened_by (bt : Backtester) (has_datetime : bool)
    (pre : list Bar.t) (s : State) : Prop :=
  exists pre1 b0 pre2,
    pre = pre1 ++ b0 :: pre2 /\
    let entry :=
      at_entry bt has_datetime
        (run_loop bt has_datetime (init_state bt) 0 pre1)
        (length pre1) b0 in
    position s = Bar.signal b0 /\
    position_value s = capital entry * Qcabs (position s) /\
    capital s = capital entry - position_value s * transaction_cost_pct bt.

(** Two states with the same books: they differ at most in the equity
    curve. *)
Definition same_books (s1 s2 : State) : Prop :=
  capital s2 = capital s1 /\
  position s2 = position s1 /\
  entry_price s2 = entry_price s1 /\
  entry_time s2 = entry_time s1 /\
  position_value s2 = position_value s1 /\
  trades s2 = trades s1 /\
  daily_pnl s2 = daily_pnl s1 /\
  transaction_costs s2 = transaction_costs s1.

(** A trade whose two times are timestamps, and a state whose trades and
    open position are so: what line 212 needs. *)
Definition timed_trade (t : Trade.t) : Prop :=
  match Trade.entry_time t, Trade.exit_time t with
  | Timestamp _, Timestamp _ => True
  | _, _ => False
  end.

Definition timed_state (s : State) : Prop :=
  Forall timed_trade (trades s) /\
  (position s <> 0 -> exists a, entry_time s = Timestamp a).

(** What a snapshot keeps of its row. *)
Definition seen (e : Snapshot.t) : Time * Qc * Qc :=
  (Snapshot.datetime e, Snapshot.price e, Snapshot.signal e).

(** The rows of a frame as the loop meets them from row [i] on. *)
Fixpoint observed (has_datetime : bool) (i : nat) (df : list Bar.t)
    : list (Time * Qc * Qc) :=
  match df with
  | [] => []
  | b :: rest =>
      (time_of has_datetime i b, Bar.close b, Bar.signal b)
      :: observed has_datetime (S i) rest
  end.

(** The rows of the returned equity curve, in order. *)
Definition processed (r : Results.t) : list (Time * Qc * Qc) :=
  map (fun e => seen (EquityRow.snapshot e)) (Results.equity_curve r).

(** An order on rows by their timestamps. *)
Definition by_datetime (R : Z -> Z -> Prop) (x y : Bar.t) : Prop :=
  R (Bar.datetime x) (Bar.datetime y).

Fixpoint ascending (l : list Z) : bool :=
  match l with
  | [] => true
  | x :: r =>
      match r with
      | [] => true
      | y :: _ => (x <=? y)%Z && ascending r
      end
  end.

(** The inputs of the specification's InvalidInput: an empty sequence, a
    price that is not positive, timestamps that do not ascend. *)
Definition invalid_input (data : list Bar.t) : bool :=
  match data with
  | [] => true
  | _ :: _ =>
      existsb (fun b => negb (Qc_ltb 0 (Bar.close b))) data
      || negb (ascending (map Bar.datetime data))
  end.

(** ** Sample inputs *)

(** [Backtester(initial_capital=10000, transaction_cost_pct=0.0003)] *)
Definition sample_backtester : Backtester :=
  {| initial_capital := qc 10000 1; transaction_cost_pct := qc 3 10000 |}.

(** Two rows: price 100 with signal 1, then price 110 with signal 0. *)
Definition sample_frame (t1 t2 : Z) : list Bar.t :=
  [ Bar.mk t1 (qc 100 1) (qc 1 1); Bar.mk t2 (qc 110 1) 0 ].

(** One row with signal 1. *)
Definition single_long : Bar.t := Bar.mk 0 (qc 100 1) (qc 1 1).

(** A negative price, and timestamps out of order. *)
Definition disorderly_frame : list Bar.t :=
  [ Bar.mk 5 (qc (-100) 1) (qc 1 1); Bar.mk 3 (qc 50 1) 0 ].

(** Two rows supplied with the later timestamp first. *)
Definition reversed_frame : list Bar.t :=
  [ Bar.mk 2 (qc 100 1) (qc 1 1); Bar.mk 1 (qc 110 1) 0 ].

(** Two rows with signal 0 and an unchanged price. *)
Definition flat_pair : list Bar.t :=
  [ Bar.mk 0 (qc 100 1) 0; Bar.mk 1 (qc 100 1) 0 ].

(** A signal of 1 held over three rows. *)
Definition held_first : Bar.t := Bar.mk 0 (qc 100 1) (qc 1 1).

Definition held_rest : list Bar.t :=
  [ Bar.mk 1 (qc 101 1) (qc 1 1); Bar.mk 2 (qc 99 1) (qc 1 1) ].

(** ** Vocabulary of the further properties *)

(** The rows of a signal list at which the loop closes a position, when it
    starts with position [pos]: those whose signal differs from a non-zero
    position held (lines 91-93). *)
Fixpoint closes (pos : Qc) (signals : list Qc) : nat :=
  match signals with
  | [] => 0%nat
  | v :: r =>
      ((if Qc_neqb v pos && Qc_neqb pos 0%Qc then 1 else 0)
       + closes v r)%nat
  end.

(** The trades of a run counted on its signals: the closes of the loop and
    the forced close when the last signal is not 0. *)
Definition trade_count (signals : list Qc) : nat :=
  (closes 0%Qc signals +
   (if Qc_neqb (last signals 0%Qc) 0%Qc then 1 else 0))%nat.

(** A signal list delayed by one row, [pos] coming first. *)
Fixpoint lagged (pos : Qc) (signals : list Qc) : list Qc :=
  match signals with
  | [] => []
  | v :: r => pos :: lagged v r
  end.

(** Costs charged: two for every trade recorded, one more while a position
    is open. *)
Definition costs_counted (s : State) : Prop :=
  length (transaction_costs s) =
  (2 * length (trades s) + (if Qc_neqb (position s) 0%Qc then 1 else 0))%nat.

(** The position held in [s] was opened at a row of [df]: it is the row's
    signal, entered at the row's price. *)
Definition position_from_rows (df : list Bar.t) (s : State) : Prop :=
  position s <> 0 ->
  exists b, In b df /\ position s = Bar.signal b /\
            entry_price s = Bar.close b.

(** A trade whose fields agree with one another and with the rows of
    [df]: size, direction and entry price are those of a row with a
    non-zero signal, the exit price is that of a row, the net profit is the
    gross profit less the cost recorded, which is not negative when the
    rate is not. *)
Definition trade_from_rows (bt : Backtester) (df : list Bar.t)
    (t : Trade.t) : Prop :=
  Trade.net_pnl t = Trade.pnl t - Trade.transaction_cost t /\
  0 < Trade.position_size t /\
  (exists b, In b df /\ Bar.signal b <> 0 /\
     Trade.position_size t = Qcabs (Bar.signal b) /\
     Trade.position_type t =
       (if Qc_ltb 0 (Bar.signal b) then LONG else SHORT) /\
     Trade.entry_price t = Bar.close b) /\
  (exists b, In b df /\ Trade.exit_price t = Bar.close b) /\
  (0 <= transaction_cost_pct bt -> 0 <= Trade.transaction_cost t).

Definition ledger_from_rows (bt : Backtester) (df : list Bar.t)
    (s : State) : Prop :=
  Forall (trade_from_rows bt df) (trades s) /\ position_from_rows df s.

(** [daily_pnl.get(k)] *)
Fixpoint dict_get (d : list (Z * Qc)) (k : Z) : option Qc :=
  match d with
  | [] => None
  | (k', x) :: r => if Z.eqb k k' then Some x else dict_get r k
  end.

(** The calendar date on which a trade was closed, when its exit time is a
    timestamp. *)
Definition exit_date (t : Trade.t) : option Z :=
  match Trade.exit_time t with
  | Timestamp m => Some (date_of m)
  | RowIndex _ => None
  end.

Definition closed_on (d : Z) (t : Trade.t) : bool :=
  match exit_date t with
  | Some d' => Z.eqb d d'
  | None => false
  end.

(** The net profit of the trades closed on date [d], if there is one. *)
Definition day_total (tr : list Trade.t) (d : Z) : option Qc :=
  match filter (closed_on d) tr with
  | [] => None
  | t :: l => Some (Qc_sum (map Trade.net_pnl (t :: l)))
  end.

(** The daily profits agree with the ledger. *)
Definition days_from_ledger (s : State) : Prop :=
  NoDup (map fst (daily_pnl s)) /\
  forall d, dict_get (daily_pnl s) d = day_total (trades s) d.

(** A trade whose exit time is a row number. *)
Definition untimed_trade (t : Trade.t) : Prop :=
  exists i, Trade.exit_time t = RowIndex i.

(** A trade left no earlier than it was entered. *)
Definition chronological (t : Trade.t) : Prop :=
  match Trade.entry_time t, Trade.exit_time t with
  | Timestamp a, Timestamp b => (a <= b)%Z
  | _, _ => False
  end.

(** The position held in [s], if any, was entered at a timestamp not
    after [m]. *)
Definition entered_by (m : Z) (s : State) : Prop :=
  position s <> 0 -> exists a, entry_time s = Timestamp a /\ (a <= m)%Z.



(** ** The sample data of [src/test_backtester.py] *)

(** The signal of bar [i] (lines 32-43): flat for the first 50 bars, then in
    every hundred bars long for 40, half long for 10, flat for 20 and short
    for 30. *)
Definition sample_signal (i : nat) : Qc :=
  if (i <? 50)%nat then 0
  else if (i mod 100 <? 40)%nat then 1
  else if (i mod 100 <? 50)%nat then qc 1 2
  else if (i mod 100 <? 70)%nat then 0
  else qc (-1) 1.

(** The frame of lines 46-50 from bar [i] on: one-minute bars from
    [start] (lines 14-19), the prices drawn at random (lines 25-28) being
    any numbers, the signals those of [sample_signal]. *)
Fixpoint sample_rows (start : Z) (i : nat) (prices : list Qc)
    : list Bar.t :=
  match prices with
  | [] => []
  | price :: rest =>
      Bar.mk (start + Z.of_nat i) price (sample_signal i)
      :: sample_rows start (S i) rest
  end.

Definition sample_data (start : Z) (prices : list Qc) : list Bar.t :=
  sample_rows start 0 prices.

(** [n_bars] (line 15) *)
Definition n_bars : nat := 1000.

(** A row with a positive price and a long signal small enough for the
    position and its two costs to be paid out of the capital. *)
Definition sized (bt : Backtester) (b : Bar.t) : Prop :=
  0 < Bar.close b /\ 0 <= Bar.signal b /\
  Bar.signal b * (1 + (1 + 1) * transaction_cost_pct bt) <= 1.

(** A state whose capital and recorded equity are positive and whose open
    position, if any, is long and covered, exit cost included, by the
    capital. *)
Definition solvent (bt : Backtester) (s : State) : Prop :=
  0 < capital s /\
  Forall (fun e => 0 < Snapshot.equity e) (equity_curve s) /\
  (position s <> 0 ->
   0 < position s /\ 0 < position_value s /\ 0 < entry_price s /\
   position_value s * (1 + transaction_cost_pct bt) <= capital s).

(** Half long on a falling price, then flat. *)
Definition half_long_frame : list Bar.t :=
  [ Bar.mk 0 (qc 100 1) (qc 1 2); Bar.mk 1 (qc 90 1) 0 ].

(** ** Facts about the numbers *)

Lemma Qc_eq_bool_true (x y : Qc) : Qc_eq_bool x y = true <-> x = y.
Proof.
  unfold Qc_eq_bool. destruct (Qc_eq_dec x y); split; congruence.
Qed.

Lemma Qc_neqb_false (x y : Qc) : Qc_neqb x y = false <-> x = y.
Proof.
  unfold Qc_neqb. rewrite negb_false_iff. apply Qc_eq_bool_true.
Qed.

Lemma Qc_neqb_true (x y : Qc) : Qc_neqb x y = true <-> x <> y.
Proof.
  unfold Qc_neqb, Qc_eq_bool.
  destruct (Qc_eq_dec x y); simpl; split; congruence.
Qed.

Lemma Qc_neqb_refl (x : Qc) : Qc_neqb x x = false.
Proof. now apply Qc_neqb_false. Qed.

Lemma Qc_ltb_true (x y : Qc) : Qc_ltb x y = true <-> x < y.
Proof.
  unfold Qc_ltb. rewrite Qclt_alt.
  destruct (x ?= y); split; congruence.
Qed.

Lemma Qc_sum_snoc (l : list Qc) (x : Qc) : Qc_sum (l ++ [x]) = Qc_sum l + x.
Proof. unfold Qc_sum. now rewrite fold_left_app. Qed.

Lemma Qc_sum_nil : Qc_sum [] = 0.
Proof. reflexivity. Qed.

(** Simplification leaves the arithmetic of rationals folded. *)
Arguments Qcplus : simpl never.
Arguments Qcminus : simpl never.
Arguments Qcmult : simpl never.
Arguments Qcdiv : simpl never.
Arguments Qcopp : simpl never.
Arguments Qcinv : simpl never.
Arguments Qcabs : simpl never.
Arguments Q2Qc : simpl never.
Arguments Qccompare : simpl never.
Arguments Qc_eq_bool : simpl never.
Arguments Qc_ltb : simpl never.
Arguments Qc_neqb : simpl never.
Arguments Qc_sum : simpl never.

(** Closed equations and disequations between rationals are decided by
    evaluation of the underlying fractions. *)
Ltac qc_eq := apply Qc_is_canon; vm_compute; reflexivity.
Ltac qc_neq :=
  let H := fresh in
  intro H; apply (f_equal this) in H; vm_compute in H; discriminate H.

(** ** The loop, row by row *)

Section Loop.

Variable bt : Backtester.
Variable has_datetime : bool.

Lemma run_loop_app (df1 df2 : list Bar.t) : forall (s : State) (i : nat),
  run_loop bt has_datetime s i (df1 ++ df2) =
  run_loop bt has_datetime
    (run_loop bt has_datetime s i df1) (i + length df1) df2.
Proof.
  induction df1 as [|b df1 IH]; intros s i; simpl.
  - now rewrite Nat.add_0_r.
  - rewrite IH. now rewrite Nat.add_succ_r.
Qed.

(** A property of the state that every row preserves holds after the
    loop. *)
Lemma run_loop_invariant (P : State -> Prop) (df : list Bar.t) :
  (forall s i b, In b df -> P s -> P (step bt has_datetime s i b)) ->
  forall s i, P s -> P (run_loop bt has_datetime s i df).
Proof.
  induction df as [|b df IH]; intros Hstep s i Hs; simpl.
  - exact Hs.
  - apply IH.
    + intros s' i' b' Hin. apply Hstep. now right.
    + apply Hstep; [now left | exact Hs].
Qed.

Lemma step_unchanged (s : State) (i : nat) (b : Bar.t) :
  Bar.signal b = position s ->
  step bt has_datetime s i b =
  record_equity s (time_of has_datetime i b) b.
Proof.
  intros H. unfold step, execute. simpl.
  rewrite H. now rewrite Qc_neqb_refl.
Qed.

Lemma step_position (s : State) (i : nat) (b : Bar.t) :
  position (step bt has_datetime s i b) = Bar.signal b.
Proof.
  unfold step, execute, settle. simpl.
  destruct (Qc_neqb (Bar.signal b) (position s)) eqn:E.
  - destruct (Qc_neqb (Bar.signal b) 0) eqn:E0; simpl.
    + reflexivity.
    + apply Qc_neqb_false in E0. rewrite E0.
      destruct (Qc_neqb (position s) 0) eqn:E1; simpl.
      * reflexivity.
      * now apply Qc_neqb_false in E1.
  - apply Qc_neqb_false in E. now simpl.
Qed.

End Loop.

(** ** What the statistics return *)

Lemma map_snapshot_equity_rows (l : list Snapshot.t) :
  forall (rs : list metric) (ms : list Qc) (ds : list metric),
  length rs = length l -> length ms = length l -> length ds = length l ->
  map EquityRow.snapshot (equity_rows l rs ms ds) = l.
Proof.
  induction l as [|x l IH]; intros rs ms ds Hr Hm Hd.
  - reflexivity.
  - destruct rs, ms, ds; try discriminate. simpl.
    f_equal. apply IH; simpl in *; congruence.
Qed.

Lemma pct_change_from_length (l : list Qc) :
  forall prev, length (pct_change_from prev l) = length l.
Proof. induction l; intros; simpl; auto. Qed.

Lemma pct_change_length (l : list Qc) : length (pct_change l) = length l.
Proof. destruct l; simpl; auto using pct_change_from_length. Qed.

Lemma cummax_from_length (l : list Qc) :
  forall m, length (cummax_from m l) = length l.
Proof. induction l; intros; simpl; auto. Qed.

Lemma cummax_length (l : list Qc) : length (cummax l) = length l.
Proof. destruct l; simpl; auto using cummax_from_length. Qed.

Lemma zip_with_length {A B C : Type} (f : A -> B -> C) (l : list A) :
  forall l', length l' = length l -> length (zip_with f l l') = length l.
Proof.
  induction l; intros [|y l'] H; simpl in *; try discriminate; auto.
Qed.

(** The fields of a returned [Results] in terms of the arguments of
    [_calculate_statistics]. *)
Lemma calculate_statistics_fields (bt : Backtester) (final_capital : Qc)
    (tr : list Trade.t) (dp : list (Z * Qc)) (ec : list Snapshot.t)
    (tc : list Qc) (sd ed : option Z) (r : Results.t) :
  _calculate_statistics bt final_capital tr dp ec tc sd ed = Ok r ->
  (Results.initial_capital r = initial_capital bt /\
   Results.final_capital r = final_capital /\
   Results.total_pnl r = final_capital - initial_capital bt /\
   Results.total_transaction_cost r = Qc_sum tc /\
   Results.trades_df r = tr /\
   map EquityRow.snapshot (Results.equity_curve r) = ec /\
   Results.total_trades r = length tr) /\
  (Results.penalty_counts r = 0%nat /\
   Results.winning_days r = count_if (fun x => Qc_ltb 0 x) (map snd dp) /\
   Results.losing_days r = count_if (fun x => Qc_ltb x 0) (map snd dp) /\
   Results.best_day r = Results.winning_days r /\
   Results.worst_day r = Results.losing_days r /\
   Results.best_day_pnl r =
     (if (0 <? length dp)%nat then Qc_maximum (map snd dp) else 0) /\
   Results.worst_day_pnl r =
     (if (0 <? length dp)%nat then Qc_minimum (map snd dp) else 0)) /\
  (Results.n_days r = calendar_days sd ed (length dp) /\
   Results.cagr r =
     (if Qc_ltb 0 (years_of (Results.n_days r))
      then CagrOf (np_div final_capital (initial_capital bt))
             (years_of (Results.n_days r))
      else Exact 0) /\
   Results.sharpe_ratio r =
     sharpe_of (dropna (pct_change (map Snapshot.equity ec))) /\
   Results.max_drawdown r =
     m_minimum (zip_with drawdown_of (map Snapshot.equity ec)
                  (cummax (map Snapshot.equity ec))) /\
   Results.calmar_ratio r =
     (if m_negative (Results.max_drawdown r)
      then CalmarOf (Results.cagr r) (Results.max_drawdown r)
      else Exact 0)).
Proof.
  unfold _calculate_statistics, bind, years_of.
  destruct (if (0 <? length tr)%nat then _ else _) as [hold|e];
    [|discriminate].
  destruct (Qc_eq_bool (initial_capital bt) 0 && _); [discriminate|].
  destruct ec as [|snap ec]; [discriminate|].
  intros [= <-]. cbn [Results.initial_capital Results.final_capital
    Results.total_trades
    Results.total_pnl Results.total_transaction_cost Results.trades_df
    Results.equity_curve Results.penalty_counts Results.winning_days
    Results.losing_days Results.best_day Results.worst_day
    Results.best_day_pnl Results.worst_day_pnl Results.n_days Results.cagr
    Results.sharpe_ratio Results.max_drawdown Results.calmar_ratio].
  rewrite !length_map.
  repeat split.
  simpl. f_equal. apply map_snapshot_equity_rows.
  - now rewrite pct_change_from_length, length_map.
  - now rewrite cummax_from_length, length_map.
  - rewrite zip_with_length; rewrite ?cummax_from_length;
      now rewrite ?length_map.
Qed.

(** ** Accounting *)

Section Accounting.

Variable bt : Backtester.
Variable has_datetime : bool.

Lemma accounted_init : accounted bt (init_state bt).
Proof.
  unfold accounted, entry_costs, ledger_net, ledger_cost. simpl.
  rewrite !Qc_sum_nil. ring.
Qed.

Lemma accounted_realize s price time date :
  accounted bt s -> accounted bt (realize bt s price time date).
Proof.
  unfold accounted, entry_costs, ledger_net, ledger_cost. simpl.
  rewrite !map_app. simpl. rewrite !Qc_sum_snoc. intros H.
  transitivity
    (Qc_sum (map Trade.net_pnl (trades s)) -
     (Qc_sum (transaction_costs s) -
      Qc_sum (map Trade.transaction_cost (trades s))) +
     (position_pnl s price - exit_cost_of bt s)).
  - ring.
  - rewrite H. ring.
Qed.

Lemma accounted_open s new_position price time :
  accounted bt s ->
  accounted bt (open_position bt s new_position price time).
Proof.
  unfold accounted, entry_costs, ledger_net, ledger_cost. simpl.
  rewrite !Qc_sum_snoc. intros H.
  transitivity
    (Qc_sum (map Trade.net_pnl (trades s)) -
     (Qc_sum (transaction_costs s) -
      Qc_sum (map Trade.transaction_cost (trades s))) -
     capital s * Qcabs new_position * transaction_cost_pct bt).
  - ring.
  - rewrite H. ring.
Qed.

Lemma accounted_settle s i b :
  accounted bt s -> accounted bt (settle bt has_datetime s i b).
Proof.
  intros H. unfold settle.
  destruct (Qc_neqb (position s) 0); [|exact H].
  unfold close_position.
  now apply (accounted_realize s (Bar.close b)
               (time_of has_datetime i b) (day_of has_datetime b)) in H.
Qed.

Lemma accounted_step s i b :
  accounted bt s -> accounted bt (step bt has_datetime s i b).
Proof.
  intros H. unfold step, execute.
  set (s0 := record_equity s (time_of has_datetime i b) b).
  assert (H0 : accounted bt s0) by exact H.
  destruct (Qc_neqb (Bar.signal b) (position s0)); [|exact H0].
  destruct (Qc_neqb (Bar.signal b) 0).
  - apply accounted_open. now apply accounted_settle.
  - now apply accounted_settle.
Qed.

Lemma accounted_close_remaining s df :
  accounted bt s -> accounted bt (close_remaining bt has_datetime s df).
Proof.
  intros H. unfold close_remaining.
  destruct (Qc_neqb (position s) 0); [|exact H].
  destruct (last_row df); [|exact H].
  now apply accounted_realize.
Qed.

Lemma accounted_simulate df : accounted bt (simulate bt has_datetime df).
Proof.
  unfold simulate. apply accounted_close_remaining.
  apply run_loop_invariant.
  - intros s i b _. apply accounted_step.
  - apply accounted_init.
Qed.

(** With a zero cost rate no cost is ever charged. *)
Hypothesis no_rate : transaction_cost_pct bt = 0.

Lemma free_realize s price time date :
  free_of_cost s -> free_of_cost (realize bt s price time date).
Proof.
  unfold free_of_cost, ledger_cost. simpl.
  rewrite !map_app. simpl. rewrite !Qc_sum_snoc.
  unfold exit_cost_of. rewrite no_rate.
  intros [H1 H2]. rewrite H1, H2. split; ring.
Qed.

Lemma free_open s new_position price time :
  free_of_cost s -> free_of_cost (open_position bt s new_position price time).
Proof.
  unfold free_of_cost, ledger_cost. simpl.
  rewrite !Qc_sum_snoc. rewrite no_rate.
  intros [H1 H2]. rewrite H1, H2. split; ring.
Qed.

Lemma free_step s i b :
  free_of_cost s -> free_of_cost (step bt has_datetime s i b).
Proof.
  intros H. unfold step, execute, settle, close_position.
  set (s0 := record_equity s (time_of has_datetime i b) b).
  assert (H0 : free_of_cost s0) by exact H.
  destruct (Qc_neqb (Bar.signal b) (position s0)); [|exact H0].
  destruct (Qc_neqb (Bar.signal b) 0), (Qc_neqb (position s0) 0);
    try apply free_open; try exact H0;
    now apply (free_realize s0 (Bar.close b) (time_of has_datetime i b)
                 (day_of has_datetime b)) in H0.
Qed.

Lemma free_simulate df : free_of_cost (simulate bt has_datetime df).
Proof.
  unfold simulate, close_remaining.
  set (s := run_loop bt has_datetime (init_state bt) 0 df).
  assert (H : free_of_cost s).
  { apply run_loop_invariant.
    - intros s' i b _. apply free_step.
    - split; reflexivity. }
  destruct (Qc_neqb (position s) 0); [|exact H].
  destruct (last_row df); [|exact H].
  now apply free_realize.
Qed.

End Accounting.

Ltac qc_lt := apply Qc_ltb_true; vm_compute; reflexivity.
Ltac qc_le :=
  let H := fresh in
  apply Qcle_alt; vm_compute; intro H; discriminate H.

(** The fields of the returned [Results] that come straight from the
    simulation. *)
Lemma run_backtest_fields (bt : Backtester) (has_datetime : bool)
    (data : list Bar.t) (r : Results.t) :
  run_backtest bt has_datetime data = Ok r ->
  let s := simulate bt has_datetime (frame has_datetime data) in
  Results.initial_capital r = initial_capital bt /\
  Results.final_capital r = capital s /\
  Results.total_pnl r = capital s - initial_capital bt /\
  Results.total_transaction_cost r = Qc_sum (transaction_costs s) /\
  Results.trades_df r = trades s /\
  map EquityRow.snapshot (Results.equity_curve r) = equity_curve s /\
  Results.total_trades r = length (trades s).
Proof.
  unfold run_backtest. intros H.
  now apply calculate_statistics_fields in H.
Qed.

(** ** The scenario of the specification *)

Lemma sample_backtester_valid : valid_rate sample_backtester.
Proof. split; [qc_le | qc_lt]. Qed.

Lemma sample_frame_valid (t1 t2 : Z) : valid_bars (sample_frame t1 t2).
Proof.
  split; [discriminate|].
  repeat constructor; simpl; qc_lt.
Qed.

(** ** C1: the ledger and the capital *)

(** C1, as stated, fails on the sample scenario: the single trade has a net
    profit of 997 while the capital grew by 994, the difference being the
    entry cost of 3, which no trade records. *)
Lemma C1_net_pnl_sum_counterexample :
  valid_rate sample_backtester /\ valid_bars (sample_frame 0 1) /\
  exists r, run_backtest sample_backtester true (sample_frame 0 1) = Ok r /\
    ledger_net (Results.trades_df r) <>
    Results.final_capital r - Results.initial_capital r.
Proof.
  split; [apply sample_backtester_valid|].
  split; [apply sample_frame_valid|].
  eexists. split; [vm_compute; reflexivity|].
  qc_neq.
Qed.

(** C1, amended.  For every valid bar sequence and cost rate, after the
    simulation (forced close included) the sum of the trades' [net_pnl]
    less the entry costs (the costs charged in total less the trades' own
    [transaction_cost]) equals the final capital minus the initial
    capital; the sum of [net_pnl] alone equals it when the cost rate is 0.
    The same holds of the fields of every returned [Results], whose
    [total_pnl] is the final capital minus the initial capital. *)
Theorem C1_ledger_accounting (bt : Backtester) (has_datetime : bool)
    (data : list Bar.t) :
  valid_rate bt -> valid_bars data ->
  let s := simulate bt has_datetime (frame has_datetime data) in
  ledger_net (trades s) - entry_costs s = capital s - initial_capital bt /\
  (transaction_cost_pct bt = 0 ->
   ledger_net (trades s) = capital s - initial_capital bt) /\
  (forall r, run_backtest bt has_datetime data = Ok r ->
     ledger_net (Results.trades_df r) -
       (Results.total_transaction_cost r - ledger_cost (Results.trades_df r))
     = Results.final_capital r - Results.initial_capital r /\
     Results.total_pnl r =
       Results.final_capital r - Results.initial_capital r).
Proof.
  intros _ _ s.
  assert (Hacc : accounted bt s) by apply accounted_simulate.
  split; [exact Hacc|]. split.
  - intros Hrate.
    destruct (free_simulate bt has_datetime Hrate (frame has_datetime data))
      as [Hc Hl].
    fold s in Hc, Hl. rewrite <- Hacc. unfold entry_costs.
    rewrite Hc, Hl. ring.
  - intros r Hr. apply run_backtest_fields in Hr.
    destruct Hr as (Hi & Hf & Hp & Hc & Ht & _). fold s in Hf, Hp, Hc, Ht.
    rewrite Hi, Hf, Hp, Hc, Ht. split; [exact Hacc | reflexivity].
Qed.

Lemma C1_ledger_accounting_witness :
  valid_rate sample_backtester /\ valid_bars (sample_frame 0 1) /\
  ledger_net
    (trades (simulate sample_backtester true (frame true (sample_frame 0 1))))
  - entry_costs (simulate sample_backtester true (frame true (sample_frame 0 1)))
  = capital (simulate sample_backtester true (frame true (sample_frame 0 1)))
    - initial_capital sample_backtester.
Proof.
  split; [exact sample_backtester_valid|].
  split; [exact (sample_frame_valid 0 1)|].
  exact (proj1 (C1_ledger_accounting sample_backtester true (sample_frame 0 1)
                  sample_backtester_valid (sample_frame_valid 0 1))).
Defined.

(** ** When a run returns *)

Lemma hold_periods_timed (l : list Trade.t) :
  Forall timed_trade l -> exists hs, hold_periods l = Ok hs.
Proof.
  induction 1 as [|t l Ht _ [hs IH]].
  - now exists [].
  - unfold timed_trade in Ht. simpl. unfold hold_period.
    destruct (Trade.entry_time t), (Trade.exit_time t); try contradiction.
    simpl. rewrite IH. simpl. eauto.
Qed.

Lemma calculate_statistics_ok (bt : Backtester) (final_capital : Qc)
    (tr : list Trade.t) (dp : list (Z * Qc)) (ec : list Snapshot.t)
    (tc : list Qc) (sd ed : option Z) :
  Forall timed_trade tr -> ec <> [] ->
  initial_capital bt <> 0 \/ tc <> [] ->
  exists r, _calculate_statistics bt final_capital tr dp ec tc sd ed = Ok r.
Proof.
  intros Htr Hec Hdiv. unfold _calculate_statistics.
  destruct (hold_periods_timed tr Htr) as [hs Hhs]. rewrite Hhs.
  assert (Hguard :
    Qc_eq_bool (initial_capital bt) 0 && (length tc =? 0)%nat = false).
  { destruct Hdiv as [H|H].
    - destruct (Qc_eq_bool (initial_capital bt) 0) eqn:E; [|reflexivity].
      apply Qc_eq_bool_true in E. contradiction.
    - destruct tc; [contradiction|]. simpl. apply andb_false_r. }
  destruct (0 <? length tr)%nat; simpl; rewrite Hguard;
    (destruct ec; [contradiction | eauto]).
Qed.

Section Returns.

Variable bt : Backtester.

Lemma timed_realize s price a date :
  timed_state s -> position s <> 0 ->
  timed_state (realize bt s price (Timestamp a) date).
Proof.
  intros [Htr Hent] Hpos. split; simpl.
  - apply Forall_app. split; [exact Htr|].
    constructor; [|constructor].
    unfold timed_trade. simpl.
    destruct (Hent Hpos) as [e He]. now rewrite He.
  - exact Hent.
Qed.

Lemma timed_step s i b :
  timed_state s -> timed_state (step bt true s i b).
Proof.
  intros Hs. unfold step, execute, settle, close_position.
  set (s0 := record_equity s (time_of true i b) b).
  assert (H0 : timed_state s0) by exact Hs.
  assert (Hflat : forall s', timed_state s' ->
            timed_state (reset_position s')).
  { intros s' [H1 _]. split; [exact H1|]. simpl. congruence. }
  assert (Hopen : forall s', timed_state s' ->
            timed_state (open_position bt s' (Bar.signal b) (Bar.close b)
                           (time_of true i b))).
  { intros s' [H1 _]. split; [exact H1|]. simpl. eauto. }
  destruct (Qc_neqb (Bar.signal b) (position s0)); [|exact H0].
  destruct (Qc_neqb (position s0) 0) eqn:E.
  - apply Qc_neqb_true in E.
    destruct (Qc_neqb (Bar.signal b) 0);
      [apply Hopen|]; apply Hflat; now apply timed_realize.
  - destruct (Qc_neqb (Bar.signal b) 0); [now apply Hopen | exact H0].
Qed.

Lemma timed_simulate df : timed_state (simulate bt true df).
Proof.
  unfold simulate, close_remaining.
  set (s := run_loop bt true (init_state bt) 0 df).
  assert (H : timed_state s).
  { apply run_loop_invariant.
    - intros s' i b _. apply timed_step.
    - split; [constructor|]. simpl. congruence. }
  destruct (Qc_neqb (position s) 0) eqn:E; [|exact H].
  destruct (last_row df); [|exact H].
  apply Qc_neqb_true in E. now apply timed_realize.
Qed.

End Returns.

(** ** The equity curve *)

Section Curve.

Variable bt : Backtester.
Variable has_datetime : bool.

Lemma execute_equity_curve s i b :
  equity_curve (execute bt has_datetime s i b) = equity_curve s.
Proof.
  unfold execute, settle.
  destruct (Qc_neqb (Bar.signal b) (position s)); [|reflexivity].
  destruct (Qc_neqb (Bar.signal b) 0), (Qc_neqb (position s) 0);
    reflexivity.
Qed.

Lemma run_loop_equity_curve df : forall s i,
  map seen (equity_curve (run_loop bt has_datetime s i df)) =
  map seen (equity_curve s) ++ observed has_datetime i df.
Proof.
  induction df as [|b df IH]; intros s i; simpl.
  - now rewrite app_nil_r.
  - rewrite IH. unfold step at 1. rewrite execute_equity_curve. simpl.
    rewrite map_app, <- app_assoc. reflexivity.
Qed.

Lemma close_remaining_equity_curve s df :
  equity_curve (close_remaining bt has_datetime s df) = equity_curve s.
Proof.
  unfold close_remaining.
  destruct (Qc_neqb (position s) 0); [|reflexivity].
  destruct (last_row df); reflexivity.
Qed.

Lemma simulate_equity_curve df :
  map seen (equity_curve (simulate bt has_datetime df)) =
  observed has_datetime 0 df.
Proof.
  unfold simulate. rewrite close_remaining_equity_curve.
  now rewrite run_loop_equity_curve.
Qed.

Lemma simulate_equity_curve_nonempty df :
  df <> [] -> equity_curve (simulate bt has_datetime df) <> [].
Proof.
  intros Hdf Heq. pose proof (simulate_equity_curve df) as H.
  rewrite Heq in H. destruct df; [contradiction | discriminate].
Qed.

End Curve.

Lemma insert_row_length (b : Bar.t) (l : list Bar.t) :
  length (insert_row b l) = S (length l).
Proof.
  induction l as [|c l IH]; simpl; [reflexivity|].
  destruct (Bar.datetime b <=? Bar.datetime c)%Z; simpl; congruence.
Qed.

Lemma sort_values_length (df : list Bar.t) :
  length (sort_values df) = length df.
Proof.
  induction df; simpl; [reflexivity|].
  rewrite insert_row_length. congruence.
Qed.

Lemma frame_nonempty (has_datetime : bool) (data : list Bar.t) :
  data <> [] -> frame has_datetime data <> [].
Proof.
  intros H. unfold frame. destruct has_datetime; [|exact H].
  intros E. apply (f_equal (@length _)) in E.
  rewrite sort_values_length in E. destruct data; [contradiction|discriminate].
Qed.

(** With the datetime column, every non-empty frame gives a [Results],
    provided the initial capital is not zero. *)
Lemma run_backtest_returns (bt : Backtester) (data : list Bar.t) :
  data <> [] -> initial_capital bt <> 0 ->
  exists r, run_backtest bt true data = Ok r.
Proof.
  intros Hdata Hcap. unfold run_backtest.
  apply calculate_statistics_ok.
  - apply timed_simulate.
  - apply simulate_equity_curve_nonempty. now apply frame_nonempty.
  - now left.
Qed.

(** ** C2: the sample scenario *)

Lemma sample_frame_sorted (t1 t2 : Z) :
  (t1 <= t2)%Z -> frame true (sample_frame t1 t2) = sample_frame t1 t2.
Proof.
  intros H. unfold frame, sample_frame. simpl.
  apply Z.leb_le in H. now rewrite H.
Qed.

Lemma sample_capital_nonzero : initial_capital sample_backtester <> 0.
Proof. qc_neq. Qed.

(** C2, as stated, fails: the position opened on a capital of 10000 has a
    notional value of 10000, not 9997 (line 132 precedes line 139), so the
    gross profit is 1000 and not 999.7, the exit cost is 3 and not
    9997 * 0.0003, and the net profit and the final capital are 997 and
    10994, 0.2991 above the approximate values the claim gives. *)
Lemma C2_sample_scenario_counterexample :
  exists r t,
    run_backtest sample_backtester true (sample_frame 0 1) = Ok r /\
    Results.trades_df r = [t]%list /\
    Trade.pnl t <> qc 9997 1 * (qc 110 1 / qc 100 1 - 1) /\
    Trade.transaction_cost t <> qc 9997 1 * qc 3 10000 /\
    Trade.net_pnl t - qc 9967009 10000 = qc 2991 10000 /\
    Results.final_capital r - qc 109937009 10000 = qc 2991 10000.
Proof.
  eexists. eexists.
  split; [vm_compute; reflexivity|].
  split; [reflexivity|].
  repeat split; try qc_neq; qc_eq.
Qed.

(** C2, amended.  With an initial capital of 10000, a cost rate of 0.0003
    and the rows (t1, 100, 1), (t2, 110, 0), the first row opens a position
    at price 100 with a notional value of 10000 and an entry cost of 3,
    leaving a capital of 9997; the run returns exactly one trade, LONG,
    entered at 100 and left at 110, with a gross profit of
    10000 * (110/100 - 1) = 1000, an exit cost of 10000 * 0.0003 = 3 and a
    net profit of 997, and a final capital of 10994. *)
Theorem C2_sample_scenario (t1 t2 : Z) :
  (t1 < t2)%Z ->
  let opened :=
    step sample_backtester true (init_state sample_backtester) 0
      (Bar.mk t1 (qc 100 1) (qc 1 1)) in
  (entry_price opened = qc 100 1 /\
   position_value opened = qc 10000 1 /\
   transaction_costs opened = [qc 3 1]%list /\
   capital opened = qc 9997 1) /\
  exists r t,
    run_backtest sample_backtester true (sample_frame t1 t2) = Ok r /\
    Results.trades_df r = [t]%list /\
    Trade.position_type t = LONG /\
    Trade.entry_time t = Timestamp t1 /\
    Trade.exit_time t = Timestamp t2 /\
    Trade.entry_price t = qc 100 1 /\
    Trade.exit_price t = qc 110 1 /\
    Trade.pnl t = qc 1000 1 /\
    Trade.transaction_cost t = qc 3 1 /\
    Trade.net_pnl t = qc 997 1 /\
    Results.final_capital r = qc 10994 1.
Proof.
  intros Hlt. split.
  - repeat split; try qc_eq.
    vm_compute. f_equal. qc_eq.
  - destruct (run_backtest_returns sample_backtester (sample_frame t1 t2))
      as [r Hr]; [discriminate | apply sample_capital_nonzero |].
    pose proof (run_backtest_fields _ _ _ _ Hr) as (_ & Hf & _ & _ & Ht & _).
    rewrite sample_frame_sorted in Hf, Ht by lia.
    exists r.
    eexists. split; [exact Hr|].
    split; [rewrite Ht; vm_compute; reflexivity|].
    rewrite Hf.
    repeat split; try reflexivity; qc_eq.
Qed.

Lemma C2_sample_scenario_witness :
  (0 < 1)%Z /\
  exists r t,
    run_backtest sample_backtester true (sample_frame 0 1) = Ok r /\
    Results.trades_df r = [t]%list /\
    Trade.net_pnl t = qc 997 1 /\
    Results.final_capital r = qc 10994 1.
Proof.
  split; [lia|].
  destruct (C2_sample_scenario 0 1) as [_ (r & t & Hr & Ht & H)]; [lia|].
  exists r, t. intuition.
Defined.

(** ** C3: a single row *)

(** C3, as stated, fails: on a single row with signal 1 the entry cost and
    the exit cost are 3 each and the trade's net profit is -3, not -6. *)
Lemma C3_single_bar_counterexample :
  Bar.signal single_long <> 0 /\ 0 < Bar.close single_long /\
  exists t entry_cost exit_cost,
    trades (simulate sample_backtester true (frame true [single_long]))
      = [t]%list /\
    transaction_costs
      (simulate sample_backtester true (frame true [single_long]))
      = [entry_cost; exit_cost]%list /\
    Trade.net_pnl t <> - (entry_cost + exit_cost).
Proof.
  split; [qc_neq|]. split; [qc_lt|].
  eexists. eexists. eexists.
  split; [vm_compute; reflexivity|].
  split; [vm_compute; reflexivity|].
  qc_neq.
Qed.

Lemma single_row_frame (has_datetime : bool) (b : Bar.t) :
  frame has_datetime [b] = [b]%list.
Proof. now destruct has_datetime. Qed.

Lemma price_ratio_one (p : Qc) : p <> 0 -> p / p - 1 = 0.
Proof. intros H. field. exact H. Qed.

(** C3, amended.  For every single row with a non-zero signal and a
    positive price the simulation produces exactly one trade, entered and
    left at the row's price, with no gross profit; two costs are charged,
    the entry cost and the exit cost; the trade records the exit cost only
    and its net profit is the negation of the exit cost; the entry cost is
    charged to the capital, which ends lower than the initial capital by
    the sum of the two costs. *)
Theorem C3_single_bar (bt : Backtester) (has_datetime : bool) (b : Bar.t) :
  Bar.signal b <> 0 -> 0 < Bar.close b ->
  let s := simulate bt has_datetime (frame has_datetime [b]) in
  let notional := initial_capital bt * Qcabs (Bar.signal b) in
  let entry_cost := notional * transaction_cost_pct bt in
  let exit_cost := Qcabs notional * transaction_cost_pct bt in
  exists t,
    trades s = [t]%list /\
    Trade.entry_price t = Bar.close b /\
    Trade.exit_price t = Bar.close b /\
    transaction_costs s = [entry_cost; exit_cost]%list /\
    Trade.pnl t = 0 /\
    Trade.transaction_cost t = exit_cost /\
    Trade.net_pnl t = - exit_cost /\
    capital s - initial_capital bt = - (entry_cost + exit_cost).
Proof.
  intros Hsig Hprice s notional entry_cost exit_cost.
  assert (Hp : Bar.close b <> 0).
  { intros E. rewrite E in Hprice. now apply Qclt_not_eq in Hprice. }
  assert (Hs : Qc_neqb (Bar.signal b) 0 = true) by now apply Qc_neqb_true.
  subst s. rewrite single_row_frame.
  unfold simulate. cbn [run_loop]. unfold step, execute, settle.
  cbn [position record_equity init_state]. rewrite Hs.
  rewrite Qc_neqb_refl.
  unfold close_remaining. cbn [position open_position]. rewrite Hs.
  cbn [last_row]. unfold realize, position_pnl, exit_cost_of.
  cbn [trades transaction_costs capital position position_value entry_price
       entry_time open_position record_equity init_state app].
  eexists. split; [reflexivity|].
  cbn [Trade.entry_price Trade.exit_price Trade.pnl Trade.transaction_cost
       Trade.net_pnl].
  assert (Hpnl :
    (if Qc_ltb 0 (Bar.signal b)
     then initial_capital bt * Qcabs (Bar.signal b) *
          (Bar.close b / Bar.close b - 1)
     else initial_capital bt * Qcabs (Bar.signal b) *
          (1 - Bar.close b / Bar.close b)) = 0).
  { destruct (Qc_ltb 0 (Bar.signal b)); field; exact Hp. }
  rewrite Hpnl. subst notional entry_cost exit_cost.
  repeat split; ring.
Qed.

Lemma C3_single_bar_witness :
  Bar.signal single_long <> 0 /\ 0 < Bar.close single_long /\
  exists t,
    trades (simulate sample_backtester true (frame true [single_long]))
      = [t]%list /\
    Trade.net_pnl t =
      - (Qcabs (initial_capital sample_backtester * Qcabs (Bar.signal single_long))
         * transaction_cost_pct sample_backtester).
Proof.
  assert (H1 : Bar.signal single_long <> 0) by qc_neq.
  assert (H2 : 0 < Bar.close single_long) by qc_lt.
  split; [exact H1|]. split; [exact H2|].
  destruct (C3_single_bar sample_backtester true single_long H1 H2)
    as (t & Ht & _ & _ & _ & _ & _ & Hn & _).
  exists t. split; [exact Ht | exact Hn].
Defined.

(** ** C4: inputs the specification calls invalid *)

(** C4, as stated, fails: the program has no validation and no InvalidInput
    error, and returns a [Results] on a frame with a negative price and
    timestamps out of order. *)
Lemma C4_invalid_input_counterexample :
  invalid_input disorderly_frame = true /\
  exists r, run_backtest sample_backtester true disorderly_frame = Ok r.
Proof.
  split; [vm_compute; reflexivity|].
  eexists. vm_compute. reflexivity.
Qed.

Lemma run_backtest_empty (bt : Backtester) (has_datetime : bool) :
  run_backtest bt has_datetime [] =
  Err (if Qc_eq_bool (initial_capital bt) 0
       then ZeroDivisionError else KeyError).
Proof.
  unfold run_backtest, frame.
  replace (if has_datetime then sort_values [] else []) with (@nil Bar.t)
    by now destruct has_datetime.
  unfold simulate, close_remaining. cbn [run_loop init_state position].
  rewrite Qc_neqb_refl.
  unfold _calculate_statistics.
  cbn [trades transaction_costs equity_curve length Nat.ltb Nat.leb bind
       Nat.eqb].
  rewrite andb_true_r.
  now destruct (Qc_eq_bool (initial_capital bt) 0).
Qed.

(** C4, amended.  The program validates nothing and has no InvalidInput
    error.  An empty frame is rejected only by accident, by the exception
    the statistics raise ([KeyError], or [ZeroDivisionError] when the
    initial capital is 0).  A non-empty frame with the datetime column is
    never rejected when the initial capital is not 0: whatever its prices
    and the order of its timestamps, a [Results] is returned. *)
Theorem C4_no_validation (bt : Backtester) (has_datetime : bool)
    (data : list Bar.t) :
  run_backtest bt has_datetime [] =
    Err (if Qc_eq_bool (initial_capital bt) 0
         then ZeroDivisionError else KeyError) /\
  (data <> [] -> initial_capital bt <> 0 ->
   exists r, run_backtest bt true data = Ok r).
Proof.
  split.
  - apply run_backtest_empty.
  - apply run_backtest_returns.
Qed.

Lemma C4_no_validation_witness :
  disorderly_frame <> [] /\ initial_capital sample_backtester <> 0 /\
  exists r, run_backtest sample_backtester true disorderly_frame = Ok r.
Proof.
  assert (H1 : disorderly_frame <> []) by discriminate.
  split; [exact H1|]. split; [exact sample_capital_nonzero|].
  exact (proj2 (C4_no_validation sample_backtester true disorderly_frame)
           H1 sample_capital_nonzero).
Defined.

(** ** C5: where positions and capital come from *)

Section Positions.

Variable bt : Backtester.
Variable has_datetime : bool.

Lemma step_changed (s : State) (i : nat) (b : Bar.t) :
  Bar.signal b <> position s ->
  step bt has_datetime s i b =
  if Qc_neqb (Bar.signal b) 0
  then open_position bt (at_entry bt has_datetime s i b) (Bar.signal b) (Bar.close b)
         (time_of has_datetime i b)
  else at_entry bt has_datetime s i b.
Proof.
  intros H. unfold step, execute, at_entry.
  cbn [position record_equity].
  apply Qc_neqb_true in H. now rewrite H.
Qed.

Lemma at_entry_flat (s : State) (i : nat) (b : Bar.t) :
  (position s = 0 -> position_value s = 0) ->
  position (at_entry bt has_datetime s i b) = 0 /\
  position_value (at_entry bt has_datetime s i b) = 0.
Proof.
  intros H. unfold at_entry, settle. cbn [position record_equity].
  destruct (Qc_neqb (position s) 0) eqn:E.
  - split; reflexivity.
  - apply Qc_neqb_false in E. split; [exact E | exact (H E)].
Qed.

Lemma position_provenance (pre : list Bar.t) :
  let s := run_loop bt has_datetime (init_state bt) 0 pre in
  (position s <> 0 -> opened_by bt has_datetime pre s) /\
  (position s = 0 -> position_value s = 0).
Proof.
  induction pre as [|c pre IH] using rev_ind.
  - simpl. split; [congruence | reflexivity].
  - cbv zeta in IH. destruct IH as [IHopen IHflat].
    cbv zeta. rewrite run_loop_app. cbn [run_loop]. rewrite Nat.add_0_l.
    set (s := run_loop bt has_datetime (init_state bt) 0 pre) in *.
    destruct (Qc_eq_dec (Bar.signal c) (position s)) as [Heq|Hne].
    + rewrite step_unchanged by exact Heq.
      cbn [position position_value capital record_equity].
      split; [|exact IHflat].
      intros Hpos. destruct (IHopen Hpos) as (pre1 & b0 & pre2 & Hpre & H).
      exists pre1, b0, (pre2 ++ [c]). split.
      * rewrite Hpre. now rewrite <- app_assoc.
      * exact H.
    + rewrite step_changed by exact Hne.
      destruct (at_entry_flat s (length pre) c IHflat) as [Hp Hv].
      destruct (Qc_neqb (Bar.signal c) 0) eqn:E.
      * cbn [position position_value capital open_position].
        split.
        -- intros _. exists pre, c, []. split; [reflexivity|].
           cbv zeta. fold s. repeat split; ring.
        -- intros H0. apply Qc_neqb_true in E. contradiction.
      * split; [intros H; contradiction | intros _; exact Hv].
Qed.

End Positions.

(** C5.  Take any run and any of its rows [b], with [pre] the rows before
    it; let [s] be the state in which [b] is met and [s'] the state in which
    it is left.  The position held after a row is that row's signal, so the
    position in which [b] is met is flat or the signal of an earlier row.
    A position held was opened by one of the earlier rows, its notional
    value is the capital held when it was opened times the absolute
    position size, and the capital has since been that capital less the
    entry cost; a flat position has no notional value.  A row whose signal
    is the position held changes neither the capital nor the position
    value: the capital changes only at rows that close or open. *)
Theorem C5_position_from_signal (bt : Backtester) (has_datetime : bool)
    (pre : list Bar.t) (b : Bar.t) :
  let s := run_loop bt has_datetime (init_state bt) 0 pre in
  let s' := step bt has_datetime s (length pre) b in
  position s' = Bar.signal b /\
  (position s = 0 \/ exists b0, In b0 pre /\ position s = Bar.signal b0) /\
  (position s <> 0 -> opened_by bt has_datetime pre s) /\
  (position s = 0 -> position_value s = 0) /\
  (Bar.signal b = position s ->
   capital s' = capital s /\ position_value s' = position_value s /\
   trades s' = trades s /\ transaction_costs s' = transaction_costs s).
Proof.
  intros s s'.
  destruct (position_provenance bt has_datetime pre) as [Hopen Hflat].
  fold s in Hopen, Hflat.
  split; [apply step_position|].
  split.
  { destruct (Qc_eq_dec (position s) 0) as [H0|H0]; [now left | right].
    destruct (Hopen H0) as (pre1 & b0 & pre2 & Hpre & Hb0 & _).
    exists b0. split; [|exact Hb0].
    rewrite Hpre. apply in_or_app. right. now left. }
  split; [exact Hopen|]. split; [exact Hflat|].
  intros Heq. subst s'. rewrite step_unchanged by exact Heq.
  repeat split.
Qed.

Lemma C5_position_from_signal_witness :
  Bar.signal (Bar.mk 1 (qc 105 1) (qc 1 1)) =
    position (run_loop sample_backtester true (init_state sample_backtester)
                0 [held_first]) /\
  position (run_loop sample_backtester true (init_state sample_backtester)
              0 [held_first]) <> 0 /\
  opened_by sample_backtester true [held_first]
    (run_loop sample_backtester true (init_state sample_backtester)
       0 [held_first]) /\
  capital
    (step sample_backtester true
       (run_loop sample_backtester true (init_state sample_backtester)
          0 [held_first])
       1 (Bar.mk 1 (qc 105 1) (qc 1 1))) =
  capital (run_loop sample_backtester true (init_state sample_backtester)
             0 [held_first]).
Proof.
  assert (H1 : Bar.signal (Bar.mk 1 (qc 105 1) (qc 1 1)) =
               position (run_loop sample_backtester true
                           (init_state sample_backtester) 0 [held_first]))
    by qc_eq.
  assert (H2 : position (run_loop sample_backtester true
                           (init_state sample_backtester) 0 [held_first])
               <> 0)
    by qc_neq.
  destruct (C5_position_from_signal sample_backtester true
              [held_first] (Bar.mk 1 (qc 105 1) (qc 1 1)))
    as (_ & _ & Hopen & _ & Hsame).
  split; [exact H1|]. split; [exact H2|].
  split; [exact (Hopen H2) | exact (proj1 (Hsame H1))].
Defined.

(** ** C6: a signal held over several rows *)

Lemma same_books_refl (s : State) : same_books s s.
Proof. repeat split. Qed.

Lemma last_cons_default (c : Bar.t) (l : list Bar.t) (d d' : Bar.t) :
  last (c :: l) d = last (c :: l) d'.
Proof.
  revert c. induction l as [|x l IH]; intros c; [reflexivity|].
  change (last (x :: l) d = last (x :: l) d'). apply IH.
Qed.

Lemma last_row_last (b : Bar.t) (rest : list Bar.t) :
  last_row (b :: rest) = Some (last rest b).
Proof.
  revert b. induction rest as [|c rest IH]; intros b.
  - reflexivity.
  - change (last_row (b :: c :: rest)) with (last_row (c :: rest)).
    rewrite IH. f_equal. destruct rest as [|x rest]; [reflexivity|].
    change (last (c :: x :: rest) b) with (last (x :: rest) b).
    apply last_cons_default.
Qed.

Section Holding.

Variable bt : Backtester.
Variable has_datetime : bool.

(** Rows that repeat the position held leave the books alone. *)
Lemma run_loop_held (rest : list Bar.t) : forall (s : State) (i : nat),
  Forall (fun x => Bar.signal x = position s) rest ->
  same_books s (run_loop bt has_datetime s i rest).
Proof.
  induction rest as [|c rest IH]; intros s i Hall.
  - apply same_books_refl.
  - inversion Hall as [|? ? Hc Hrest]; subst. cbn [run_loop].
    rewrite step_unchanged by exact Hc.
    apply (IH (record_equity s (time_of has_datetime i c) c) (S i)).
    exact Hrest.
Qed.

Lemma step_init_opens (b : Bar.t) :
  Bar.signal b <> 0 ->
  step bt has_datetime (init_state bt) 0 b =
  open_position bt
    (record_equity (init_state bt) (time_of has_datetime 0 b) b)
    (Bar.signal b) (Bar.close b) (time_of has_datetime 0 b).
Proof.
  intros H. rewrite step_changed by exact H.
  apply Qc_neqb_true in H. rewrite H.
  unfold at_entry, settle. cbn [position record_equity init_state].
  now rewrite Qc_neqb_refl.
Qed.

End Holding.

(** C6.  Let a non-zero signal be held over the rows [b :: rest].  From any
    state, the rows after the first leave the books as the first row left
    them: no trade is recorded and no cost is charged while the signal is
    repeated, and the entry price and time stay those set at the first row.
    The rows that follow with a different signal find that one position,
    and the first of them closes it in one trade.  A run made of these rows
    alone produces exactly one trade, entered at the first row and left at
    the last, and exactly two costs, one entry and one exit. *)
Theorem C6_held_signal_one_trade (bt : Backtester) (has_datetime : bool)
    (s : State) (i : nat) (b : Bar.t) (rest : list Bar.t) :
  Bar.signal b <> 0 ->
  Forall (fun x => Bar.signal x = Bar.signal b) rest ->
  let s1 := step bt has_datetime s i b in
  let sN := run_loop bt has_datetime s i (b :: rest) in
  same_books s1 sN /\
  position sN = Bar.signal b /\
  (forall c k, Bar.signal c <> Bar.signal b ->
     exists t,
       trades (step bt has_datetime sN k c) = trades s1 ++ [t] /\
       Trade.entry_time t = entry_time s1 /\
       Trade.entry_price t = entry_price s1 /\
       Trade.exit_time t = time_of has_datetime k c /\
       Trade.exit_price t = Bar.close c) /\
  let final := simulate bt has_datetime (b :: rest) in
  let notional := initial_capital bt * Qcabs (Bar.signal b) in
  exists t,
    trades final = [t]%list /\
    Trade.entry_time t = time_of has_datetime 0 b /\
    Trade.entry_price t = Bar.close b /\
    Trade.exit_time t = time_of has_datetime (length rest) (last rest b) /\
    Trade.exit_price t = Bar.close (last rest b) /\
    Trade.position_size t = Qcabs (Bar.signal b) /\
    transaction_costs final =
      [notional * transaction_cost_pct bt;
       Qcabs notional * transaction_cost_pct bt]%list.
Proof.
  intros Hsig Hall s1 sN.
  assert (Hheld : forall s0 j,
            same_books (step bt has_datetime s0 j b)
              (run_loop bt has_datetime s0 j (b :: rest))).
  { intros s0 j. cbn [run_loop]. apply run_loop_held.
    now rewrite step_position. }
  assert (Hpos : position sN = Bar.signal b).
  { destruct (Hheld s i) as (_ & Hp & _). fold sN in Hp.
    rewrite Hp. apply step_position. }
  split; [apply Hheld|]. split; [exact Hpos|]. split.
  - intros c k Hc.
    assert (Hne : Bar.signal c <> position sN) by now rewrite Hpos.
    rewrite step_changed by exact Hne.
    destruct (Hheld s i) as (_ & _ & Hep & Het & _ & Htr & _).
    fold s1 sN in Hep, Het, Htr.
    assert (Hopen : Qc_neqb (position sN) 0 = true).
    { apply Qc_neqb_true. now rewrite Hpos. }
    unfold at_entry, settle. cbn [position record_equity]. rewrite Hopen.
    eexists.
    split.
    + destruct (Qc_neqb (Bar.signal c) 0);
        cbn [trades open_position close_position reset_position realize
             record_equity];
        rewrite Htr; reflexivity.
    + cbn [Trade.entry_time Trade.entry_price Trade.exit_time
           Trade.exit_price entry_time entry_price record_equity].
      repeat split; assumption.
  - intros final notional. subst final. unfold simulate.
    destruct (Hheld (init_state bt) 0%nat)
      as (_ & Hp & Hep & Het & Hpv & Htr & _ & Htc).
    set (sL := run_loop bt has_datetime (init_state bt) 0 (b :: rest)) in *.
    rewrite step_init_opens in Hp, Hep, Het, Hpv, Htr, Htc by exact Hsig.
    cbn [position entry_price entry_time position_value trades
         transaction_costs capital open_position record_equity init_state]
      in Hp, Hep, Het, Hpv, Htr, Htc.
    unfold close_remaining.
    assert (Hopen : Qc_neqb (position sL) 0 = true).
    { apply Qc_neqb_true. now rewrite Hp. }
    rewrite Hopen, last_row_last.
    eexists. split.
    + cbn [trades realize]. rewrite Htr. reflexivity.
    + cbn [Trade.entry_time Trade.entry_price Trade.exit_time
           Trade.exit_price Trade.position_size transaction_costs realize].
      unfold exit_cost_of. rewrite Het, Hep, Hp, Hpv, Htc.
      replace (length (b :: rest) - 1)%nat with (length rest)
        by (simpl; lia).
      repeat split.
Qed.

Lemma C6_held_signal_one_trade_witness :
  Bar.signal held_first <> 0 /\
  Forall (fun x => Bar.signal x = Bar.signal held_first) held_rest /\
  exists t,
    trades (simulate sample_backtester true (held_first :: held_rest))
      = [t]%list /\
    Trade.entry_time t = Timestamp 0 /\
    Trade.exit_time t = Timestamp 2.
Proof.
  assert (H1 : Bar.signal held_first <> 0) by qc_neq.
  assert (H2 : Forall (fun x => Bar.signal x = Bar.signal held_first)
                 held_rest)
    by (repeat constructor).
  split; [exact H1|]. split; [exact H2|].
  destruct (C6_held_signal_one_trade sample_backtester true
              (init_state sample_backtester) 0 held_first held_rest H1 H2)
    as (_ & _ & _ & t & Ht & He & _ & Hx & _).
  exists t. split; [exact Ht|]. split; [exact He | exact Hx].
Defined.

(** ** C7: a signal that is always 0 *)

Lemma Forall_insert_row (P : Bar.t -> Prop) (b : Bar.t) (l : list Bar.t) :
  P b -> Forall P l -> Forall P (insert_row b l).
Proof.
  intros Hb. induction 1 as [|c l Hc Hl IH]; simpl.
  - now constructor.
  - destruct (Bar.datetime b <=? Bar.datetime c)%Z; auto.
Qed.

Lemma Forall_sort_values (P : Bar.t -> Prop) (df : list Bar.t) :
  Forall P df -> Forall P (sort_values df).
Proof.
  induction 1; simpl; [constructor | now apply Forall_insert_row].
Qed.

Lemma Forall_frame (P : Bar.t -> Prop) (has_datetime : bool)
    (data : list Bar.t) :
  Forall P data -> Forall P (frame has_datetime data).
Proof.
  unfold frame. destruct has_datetime; [apply Forall_sort_values | auto].
Qed.

Lemma simulate_flat (bt : Backtester) (has_datetime : bool)
    (df : list Bar.t) :
  Forall (fun b => Bar.signal b = 0) df ->
  same_books (init_state bt) (simulate bt has_datetime df).
Proof.
  intros Hall. unfold simulate, close_remaining.
  pose proof (run_loop_held bt has_datetime df (init_state bt) 0 Hall) as H.
  set (s := run_loop bt has_datetime (init_state bt) 0 df) in *.
  destruct H as (Hc & Hp & H). cbn [position init_state] in Hp.
  rewrite Hp, Qc_neqb_refl. repeat split; tauto.
Qed.

(** C7.  For every non-empty bar sequence whose signal is 0 at every bar,
    the simulation records no trade, charges no cost and ends with the
    initial capital; every [Results] returned has an empty ledger, a final
    capital equal to the initial capital and a total transaction cost of 0;
    and a [Results] is returned whenever the initial capital is not 0. *)
Theorem C7_flat_signal_no_trades (bt : Backtester) (has_datetime : bool)
    (data : list Bar.t) :
  data <> [] ->
  Forall (fun b => Bar.signal b = 0) data ->
  let s := simulate bt has_datetime (frame has_datetime data) in
  (trades s = [] /\ transaction_costs s = [] /\
   capital s = initial_capital bt) /\
  (forall r, run_backtest bt has_datetime data = Ok r ->
     Results.trades_df r = [] /\
     Results.total_trades r = 0%nat /\
     Results.final_capital r = Results.initial_capital r /\
     Results.total_transaction_cost r = 0) /\
  (initial_capital bt <> 0 ->
   exists r, run_backtest bt has_datetime data = Ok r).
Proof.
  intros Hdata Hall s.
  pose proof (simulate_flat bt has_datetime (frame has_datetime data)
                (Forall_frame _ has_datetime data Hall))
    as (Hc & _ & _ & _ & _ & Htr & _ & Htc).
  fold s in Hc, Htr, Htc. cbn [init_state capital trades transaction_costs]
    in Hc, Htr, Htc.
  split; [auto|]. split.
  - intros r Hr.
    pose proof (run_backtest_fields _ _ _ _ Hr)
      as (Hi & Hf & _ & Hcost & Ht & _ & Hn).
    fold s in Hf, Hcost, Ht, Hn.
    rewrite Hn, Hi, Hf, Hcost, Ht, Htr, Htc, Hc. auto.
  - intros Hcap. unfold run_backtest. fold s.
    apply calculate_statistics_ok.
    + rewrite Htr. constructor.
    + apply simulate_equity_curve_nonempty. now apply frame_nonempty.
    + now left.
Qed.

Lemma C7_flat_signal_no_trades_witness :
  flat_pair <> [] /\ Forall (fun b => Bar.signal b = 0) flat_pair /\
  exists r, run_backtest sample_backtester true flat_pair = Ok r /\
    Results.trades_df r = [] /\
    Results.final_capital r = Results.initial_capital r /\
    Results.total_transaction_cost r = 0.
Proof.
  assert (H1 : flat_pair <> []) by discriminate.
  assert (H2 : Forall (fun b => Bar.signal b = 0) flat_pair)
    by (repeat constructor).
  split; [exact H1|]. split; [exact H2|].
  destruct (C7_flat_signal_no_trades sample_backtester true flat_pair H1 H2)
    as (_ & Hres & Hex).
  destruct (Hex sample_capital_nonzero) as [r Hr].
  exists r. split; [exact Hr|].
  destruct (Hres r Hr) as (Ht & _ & Hf & Hc). auto.
Defined.

(** ** C8: the order of the rows *)

(** C8, as stated, fails: the rows of [reversed_frame] are processed in the
    order of their timestamps, not in the order supplied, and the final
    capital is not the one the supplied order would give. *)
Lemma C8_supplied_order_counterexample :
  exists r, run_backtest sample_backtester true reversed_frame = Ok r /\
    processed r <> observed true 0 reversed_frame /\
    Results.final_capital r <>
      capital (simulate sample_backtester true reversed_frame).
Proof.
  eexists. split; [vm_compute; reflexivity|]. split.
  - intros H. apply (f_equal (map (fun x => fst (fst x)))) in H.
    vm_compute in H. discriminate H.
  - qc_neq.
Qed.

Lemma insert_row_perm (b : Bar.t) (l : list Bar.t) :
  Permutation (b :: l) (insert_row b l).
Proof.
  induction l as [|c l IH]; simpl; [reflexivity|].
  destruct (Bar.datetime b <=? Bar.datetime c)%Z; [reflexivity|].
  rewrite perm_swap. now constructor.
Qed.

Lemma sort_values_perm (df : list Bar.t) : Permutation df (sort_values df).
Proof.
  induction df as [|b df IH]; simpl; [constructor|].
  rewrite <- insert_row_perm. now constructor.
Qed.

Lemma insert_row_sorted (b : Bar.t) (l : list Bar.t) :
  StronglySorted (by_datetime Z.le) l ->
  StronglySorted (by_datetime Z.le) (insert_row b l).
Proof.
  induction 1 as [|c l Hs IH Hc]; simpl.
  - repeat constructor.
  - destruct (Bar.datetime b <=? Bar.datetime c)%Z eqn:E.
    + apply Z.leb_le in E. constructor; [now constructor|].
      constructor; [exact E|].
      eapply Forall_impl; [|exact Hc].
      unfold by_datetime. intros a Ha. lia.
    + apply Z.leb_gt in E. constructor; [exact IH|].
      eapply Permutation_Forall; [apply insert_row_perm|].
      constructor; [unfold by_datetime; lia | exact Hc].
Qed.

Lemma sort_values_sorted (df : list Bar.t) :
  StronglySorted (by_datetime Z.le) (sort_values df).
Proof.
  induction df; simpl; [constructor | now apply insert_row_sorted].
Qed.

Lemma sort_values_ascending (df : list Bar.t) :
  StronglySorted (by_datetime Z.lt) df -> sort_values df = df.
Proof.
  induction 1 as [|b l Hs IH Hb]; simpl; [reflexivity|].
  rewrite IH. destruct l as [|c l]; [reflexivity|]. simpl.
  inversion Hb as [|? ? Hc _]; subst. unfold by_datetime in Hc.
  assert (E : (Bar.datetime b <=? Bar.datetime c)%Z = true)
    by (apply Z.leb_le; lia).
  now rewrite E.
Qed.

(** C8, amended.  The equity curve, the trade ledger and all results are
    computed over the rows of [frame]: with the datetime column these are
    the supplied rows sorted by ascending timestamp (line 44), which is the
    supplied order when the timestamps already ascend strictly; without it
    they are the rows in the order supplied. *)
Theorem C8_rows_processed_in_timestamp_order (bt : Backtester)
    (has_datetime : bool) (data : list Bar.t) (r : Results.t) :
  run_backtest bt has_datetime data = Ok r ->
  (processed r = observed has_datetime 0 (frame has_datetime data) /\
   Results.trades_df r =
     trades (simulate bt has_datetime (frame has_datetime data)) /\
   Results.final_capital r =
     capital (simulate bt has_datetime (frame has_datetime data))) /\
  (has_datetime = false -> frame has_datetime data = data) /\
  (has_datetime = true ->
   Permutation data (frame has_datetime data) /\
   StronglySorted (by_datetime Z.le) (frame has_datetime data) /\
   (StronglySorted (by_datetime Z.lt) data ->
    frame has_datetime data = data /\
    processed r = observed has_datetime 0 data)).
Proof.
  intros Hr.
  pose proof (run_backtest_fields _ _ _ _ Hr) as (_ & Hf & _ & _ & Ht & He & _).
  assert (Hproc : processed r =
                  observed has_datetime 0 (frame has_datetime data)).
  { unfold processed. rewrite <- (map_map EquityRow.snapshot seen), He.
    apply simulate_equity_curve. }
  split; [auto|]. split.
  - intros ->. reflexivity.
  - intros ->. unfold frame in *.
    split; [apply sort_values_perm|].
    split; [apply sort_values_sorted|].
    intros Hasc. rewrite sort_values_ascending in Hproc by exact Hasc.
    split; [now apply sort_values_ascending | exact Hproc].
Qed.

Lemma C8_rows_processed_in_timestamp_order_witness :
  exists r, run_backtest sample_backtester true reversed_frame = Ok r /\
    processed r = observed true 0 (sort_values reversed_frame).
Proof.
  assert (H : { r | run_backtest sample_backtester true reversed_frame
                    = Ok r })
    by (eexists; vm_compute; reflexivity).
  destruct H as [r Hr]. exists r. split; [exact Hr|].
  exact (proj1 (proj1 (C8_rows_processed_in_timestamp_order
                         sample_backtester true reversed_frame r Hr))).
Defined.

(** ** C9: degenerate statistics *)

(** Where the guards of lines 255, 271 and 282 do give the neutral value:
    no return at all, at least two returns without variance, a maximum
    drawdown that is not negative, a number of years that is not
    positive. *)
Lemma finite_values_exact (qs : list Qc) :
  finite_values (map Exact qs) = Some qs.
Proof.
  induction qs as [|q qs IH]; simpl; [reflexivity|]. now rewrite IH.
Qed.

Lemma sharpe_of_no_return : sharpe_of [] = Exact 0.
Proof. reflexivity. Qed.

Lemma sharpe_of_no_variance (qs : list Qc) :
  (2 <= length qs)%nat -> sample_var qs = 0 ->
  sharpe_of (map Exact qs) = Exact 0.
Proof.
  intros Hlen Hvar. unfold sharpe_of.
  destruct qs as [|q qs]; [reflexivity|].
  change (map Exact (q :: qs)) with (Exact q :: map Exact qs) at 1.
  rewrite finite_values_exact.
  assert (E : (length (q :: qs) <=? 1)%nat = false)
    by (apply Nat.leb_gt; lia).
  rewrite E, Hvar. now rewrite Qc_neqb_refl.
Qed.

Lemma neutral_calmar_and_cagr (bt : Backtester) (has_datetime : bool)
    (data : list Bar.t) (r : Results.t) :
  run_backtest bt has_datetime data = Ok r ->
  (m_negative (Results.max_drawdown r) = false ->
   Results.calmar_ratio r = Exact 0) /\
  (Qc_ltb 0 (years_of (Results.n_days r)) = false ->
   Results.cagr r = Exact 0).
Proof.
  unfold run_backtest. intros Hr.
  apply calculate_statistics_fields in Hr.
  destruct Hr as (_ & _ & _ & Hcagr & _ & _ & Hcalmar).
  split; intros H.
  - now rewrite Hcalmar, H.
  - now rewrite Hcagr, H.
Qed.

(** One return only: [std()] is [nan], the guard of line 271 lets it
    through and the ratio is [nan]. *)
Lemma sharpe_of_single_return (m : metric) : sharpe_of [m] = NaN.
Proof. now destruct m. Qed.

(** C9, the failing input.  On two flat rows the equity is 10000 twice, the
    only per-bar return is 0, and the Sharpe ratio returned is [nan], not
    0; so it is on every two-row frame, whose returns are a single
    number. *)
Theorem C9_sharpe_nan_on_two_rows :
  exists r x,
    run_backtest sample_backtester true flat_pair = Ok r /\
    dropna (map EquityRow.returns (Results.equity_curve r))
      = [Exact x]%list /\
    x = 0 /\
    Results.sharpe_ratio r = NaN.
Proof.
  eexists. eexists.
  split; [vm_compute; reflexivity|].
  split; [vm_compute; reflexivity|].
  split; [qc_eq | reflexivity].
Qed.

(** Without the datetime column the elapsed years are 0, and a run with a
    trade does not reach the CAGR: line 212 raises on the integer row
    numbers. *)
Lemma untimed_trade_raises :
  run_backtest sample_backtester false [single_long] = Err AttributeError.
Proof. vm_compute. reflexivity. Qed.

(** ** C10: fields outside the specification's list *)

(** C10.  Every returned [Results] has [penalty_counts] 0 and has in
    [best_day] and [worst_day] the number of days with a positive and with
    a negative accumulated net profit, the values of [winning_days] and
    [losing_days]; the extreme daily profits are in [best_day_pnl] and
    [worst_day_pnl]. *)
Theorem C10_penalty_and_day_counts (bt : Backtester) (has_datetime : bool)
    (data : list Bar.t) (r : Results.t) :
  run_backtest bt has_datetime data = Ok r ->
  let days :=
    map snd (daily_pnl (simulate bt has_datetime (frame has_datetime data))) in
  Results.penalty_counts r = 0%nat /\
  Results.best_day r = Results.winning_days r /\
  Results.worst_day r = Results.losing_days r /\
  Results.winning_days r = count_if (fun x => Qc_ltb 0 x) days /\
  Results.losing_days r = count_if (fun x => Qc_ltb x 0) days /\
  Results.best_day_pnl r =
    (if (0 <? length days)%nat then Qc_maximum days else 0) /\
  Results.worst_day_pnl r =
    (if (0 <? length days)%nat then Qc_minimum days else 0).
Proof.
  intros Hr days. unfold run_backtest in Hr.
  apply calculate_statistics_fields in Hr.
  destruct Hr as (_ & (Hp & Hw & Hl & Hb & Hwd & Hbp & Hwp) & _).
  subst days. rewrite length_map. repeat split; assumption.
Qed.

Lemma C10_penalty_and_day_counts_witness :
  exists r,
    run_backtest sample_backtester true (sample_frame 0 1) = Ok r /\
    Results.penalty_counts r = 0%nat /\
    Results.best_day r = Results.winning_days r /\
    Results.worst_day r = Results.losing_days r.
Proof.
  assert (H : { r | run_backtest sample_backtester true (sample_frame 0 1)
                    = Ok r })
    by (eexists; vm_compute; reflexivity).
  destruct H as [r Hr]. exists r. split; [exact Hr|].
  destruct (C10_penalty_and_day_counts sample_backtester true
              (sample_frame 0 1) r Hr) as (H1 & H2 & H3 & _).
  auto.
Defined.

(** * Further properties of the program *)

(** Inequalities between rationals are proved on the underlying
    fractions. *)
Ltac qc_unfold :=
  unfold Qcle, Qclt, Qcdiv, Qcminus, Qcplus, Qcmult, Qcopp, Qcinv, Q2Qc in *;
  cbn [this] in *; rewrite ?Qred_correct in *.

Lemma last_default_irrelevant {A : Type} (x : A) (l : list A) (d d' : A) :
  last (x :: l) d = last (x :: l) d'.
Proof.
  revert x. induction l as [|y l IH]; intros x; [reflexivity|].
  change (last (y :: l) d = last (y :: l) d'). apply IH.
Qed.

(** ** Counting trades and costs *)

Section Counting.

Variable bt : Backtester.
Variable has_datetime : bool.

Lemma step_trades_length (s : State) (i : nat) (b : Bar.t) :
  length (trades (step bt has_datetime s i b)) =
  (length (trades s) +
   (if Qc_neqb (Bar.signal b) (position s) && Qc_neqb (position s) 0%Qc
    then 1 else 0))%nat.
Proof.
  unfold step, execute, settle. cbn [position record_equity].
  destruct (Qc_neqb (Bar.signal b) (position s)); simpl andb.
  - destruct (Qc_neqb (position s) 0), (Qc_neqb (Bar.signal b) 0);
      cbn [trades open_position close_position reset_position realize
           record_equity];
      rewrite ?length_app; simpl; lia.
  - simpl. lia.
Qed.

Lemma run_loop_trades_length (df : list Bar.t) : forall (s : State) (i : nat),
  length (trades (run_loop bt has_datetime s i df)) =
    (length (trades s) + closes (position s) (map Bar.signal df))%nat /\
  position (run_loop bt has_datetime s i df) =
    last (map Bar.signal df) (position s).
Proof.
  induction df as [|b df IH]; intros s i.
  - simpl. split; [lia | reflexivity].
  - cbn [run_loop map closes].
    destruct (IH (step bt has_datetime s i b) (S i)) as [Hlen Hpos].
    rewrite Hlen, Hpos, step_trades_length, step_position. split; [lia|].
    destruct df as [|c df]; [reflexivity|].
    cbn [map].
    change (last (Bar.signal b :: Bar.signal c :: map Bar.signal df)
              (position s))
      with (last (Bar.signal c :: map Bar.signal df) (position s)).
    apply last_default_irrelevant.
Qed.

Lemma costs_counted_step (s : State) (i : nat) (b : Bar.t) :
  costs_counted s -> costs_counted (step bt has_datetime s i b).
Proof.
  unfold costs_counted, step, execute, settle.
  cbn [position record_equity]. intros H.
  destruct (Qc_neqb (Bar.signal b) (position s)) eqn:E1; [|exact H].
  destruct (Qc_neqb (position s) 0) eqn:E2,
           (Qc_neqb (Bar.signal b) 0) eqn:E3;
    cbn [trades transaction_costs position open_position close_position
         reset_position realize record_equity];
    rewrite ?length_app, ?E3, ?Qc_neqb_refl; simpl length; try lia.
  apply Qc_neqb_false in E2, E3. apply Qc_neqb_true in E1. congruence.
Qed.

Lemma costs_counted_loop (df : list Bar.t) :
  costs_counted (run_loop bt has_datetime (init_state bt) 0 df).
Proof.
  apply run_loop_invariant.
  - intros s i b _. apply costs_counted_step.
  - unfold costs_counted. cbn [init_state transaction_costs trades position].
    now rewrite Qc_neqb_refl.
Qed.

End Counting.

Lemma close_remaining_counts (bt : Backtester) (has_datetime : bool)
    (s : State) (df : list Bar.t) :
  (df = [] -> position s = 0) ->
  length (trades (close_remaining bt has_datetime s df)) =
    (length (trades s) + (if Qc_neqb (position s) 0%Qc then 1 else 0))%nat /\
  length (transaction_costs (close_remaining bt has_datetime s df)) =
    (length (transaction_costs s) +
     (if Qc_neqb (position s) 0%Qc then 1 else 0))%nat.
Proof.
  intros Hdf. unfold close_remaining.
  destruct (Qc_neqb (position s) 0) eqn:E; [|split; lia].
  destruct df as [|b rest].
  - rewrite (Hdf eq_refl), Qc_neqb_refl in E. discriminate E.
  - rewrite last_row_last. cbn [trades transaction_costs realize].
    rewrite !length_app. simpl. split; lia.
Qed.

Lemma simulate_trades_length (bt : Backtester) (has_datetime : bool)
    (df : list Bar.t) :
  length (trades (simulate bt has_datetime df)) =
  trade_count (map Bar.signal df).
Proof.
  unfold simulate, trade_count.
  destruct (run_loop_trades_length bt has_datetime df (init_state bt) 0)
    as [Hlen Hpos].
  cbn [init_state trades position length] in Hlen, Hpos.
  destruct (close_remaining_counts bt has_datetime
              (run_loop bt has_datetime (init_state bt) 0 df) df)
    as [Ht _].
  { intros ->. reflexivity. }
  rewrite Ht, Hlen, Hpos. reflexivity.
Qed.

Lemma simulate_costs_empty (bt : Backtester) (has_datetime : bool)
    (df : list Bar.t) :
  trades (simulate bt has_datetime df) = [] <->
  transaction_costs (simulate bt has_datetime df) = [].
Proof.
  unfold simulate.
  pose proof (costs_counted_loop bt has_datetime df) as Hc.
  unfold costs_counted in Hc.
  destruct (close_remaining_counts bt has_datetime
              (run_loop bt has_datetime (init_state bt) 0 df) df)
    as [Ht Hcost].
  { intros ->. reflexivity. }
  rewrite <- !length_zero_iff_nil, Ht, Hcost, Hc.
  destruct (Qc_neqb _ 0); lia.
Qed.

(** X1.  The number of trades of a run is read off its signals alone: one
    for each row whose signal differs from the non-zero signal of the row
    before, and one more when the last signal is not 0.  Prices, costs and
    capital play no part in it. *)
Theorem X1_trade_count_from_signals (bt : Backtester) (has_datetime : bool)
    (data : list Bar.t) :
  length (trades (simulate bt has_datetime (frame has_datetime data))) =
    trade_count (map Bar.signal (frame has_datetime data)) /\
  (forall r, run_backtest bt has_datetime data = Ok r ->
     Results.total_trades r =
       trade_count (map Bar.signal (frame has_datetime data))).
Proof.
  split; [apply simulate_trades_length|].
  intros r Hr. apply run_backtest_fields in Hr.
  destruct Hr as (_ & _ & _ & _ & _ & _ & Hn).
  rewrite Hn. apply simulate_trades_length.
Qed.

Lemma X1_trade_count_from_signals_witness :
  exists r,
    run_backtest sample_backtester true (held_first :: held_rest) = Ok r /\
    Results.total_trades r = 1%nat.
Proof.
  assert (H : { r | run_backtest sample_backtester true
                      (held_first :: held_rest) = Ok r })
    by (eexists; vm_compute; reflexivity).
  destruct H as [r Hr]. exists r. split; [exact Hr|].
  rewrite (proj2 (X1_trade_count_from_signals sample_backtester true
                    (held_first :: held_rest)) r Hr).
  vm_compute. reflexivity.
Defined.

(** X2.  When the simulation is over every position opened has been
    closed: the costs charged are exactly two for each trade of the ledger,
    one at entry and one at exit. *)
Theorem X2_two_costs_per_trade (bt : Backtester) (has_datetime : bool)
    (df : list Bar.t) :
  length (transaction_costs (simulate bt has_datetime df)) =
  (2 * length (trades (simulate bt has_datetime df)))%nat.
Proof.
  unfold simulate.
  pose proof (costs_counted_loop bt has_datetime df) as Hc.
  unfold costs_counted in Hc.
  destruct (close_remaining_counts bt has_datetime
              (run_loop bt has_datetime (init_state bt) 0 df) df)
    as [Ht Hcost].
  { intros ->. reflexivity. }
  rewrite Ht, Hcost, Hc.
  destruct (Qc_neqb _ 0); lia.
Qed.

(** ** The columns of the equity curve *)

Section Columns.

Variable bt : Backtester.
Variable has_datetime : bool.

Lemma step_equity_curve (s : State) (i : nat) (b : Bar.t) :
  equity_curve (step bt has_datetime s i b) =
  equity_curve s ++
    [ {| Snapshot.datetime := time_of has_datetime i b;
         Snapshot.equity := current_equity s (Bar.close b);
         Snapshot.price := Bar.close b;
         Snapshot.signal := Bar.signal b;
         Snapshot.position := position s |} ].
Proof. unfold step. now rewrite execute_equity_curve. Qed.

Lemma run_loop_position_column (df : list Bar.t) : forall (s : State) (i : nat),
  map Snapshot.position (equity_curve (run_loop bt has_datetime s i df)) =
  map Snapshot.position (equity_curve s)
    ++ lagged (position s) (map Bar.signal df).
Proof.
  induction df as [|b df IH]; intros s i; cbn [run_loop map lagged].
  - now rewrite app_nil_r.
  - rewrite IH, step_equity_curve, step_position, map_app, <- app_assoc.
    reflexivity.
Qed.

Lemma run_loop_equity_prefix (df : list Bar.t) : forall (s : State) (i : nat),
  exists tl,
    equity_curve (run_loop bt has_datetime s i df) = equity_curve s ++ tl.
Proof.
  induction df as [|b df IH]; intros s i; cbn [run_loop].
  - exists []. now rewrite app_nil_r.
  - destruct (IH (step bt has_datetime s i b) (S i)) as [tl Htl].
    rewrite Htl, step_equity_curve, <- app_assoc. eauto.
Qed.

End Columns.

(** X3.  The equity curve has one snapshot for each row of the frame, in
    order, carrying the row's time, price and signal.  Its position column
    is the signal column delayed by one row, starting flat: the position a
    snapshot shows is the one held before the row's trade.  Its first
    equity is the initial capital. *)
Theorem X3_equity_curve_columns (bt : Backtester) (has_datetime : bool)
    (df : list Bar.t) :
  let curve := equity_curve (simulate bt has_datetime df) in
  length curve = length df /\
  map seen curve = observed has_datetime 0 df /\
  map Snapshot.position curve = lagged 0 (map Bar.signal df) /\
  (df <> [] ->
   exists tl, map Snapshot.equity curve = initial_capital bt :: tl).
Proof.
  intros curve. subst curve.
  pose proof (simulate_equity_curve bt has_datetime df) as Hseen.
  split.
  { apply (f_equal (@length _)) in Hseen. rewrite length_map in Hseen.
    rewrite Hseen. clear. generalize 0%nat.
    induction df; intros n; simpl; auto. }
  split; [exact Hseen|].
  unfold simulate. rewrite close_remaining_equity_curve.
  split.
  - now rewrite run_loop_position_column.
  - intros Hdf. destruct df as [|b rest]; [contradiction|].
    cbn [run_loop].
    destruct (run_loop_equity_prefix bt has_datetime rest
                (step bt has_datetime (init_state bt) 0 b) 1) as [tl Htl].
    rewrite Htl, step_equity_curve. cbn [equity_curve init_state app map].
    unfold current_equity. cbn [position init_state capital].
    rewrite Qc_neqb_refl. eauto.
Qed.

Lemma X3_equity_curve_columns_witness :
  sample_frame 0 1 <> [] /\
  exists tl,
    map Snapshot.equity
      (equity_curve (simulate sample_backtester true (sample_frame 0 1)))
    = initial_capital sample_backtester :: tl.
Proof.
  assert (H : sample_frame 0 1 <> []) by discriminate.
  split; [exact H|].
  exact (proj2 (proj2 (proj2
    (X3_equity_curve_columns sample_backtester true (sample_frame 0 1)))) H).
Defined.

(** ** The records of the ledger *)

Lemma Qcabs_positive (x : Qc) : x <> 0 -> 0 < Qcabs x.
Proof.
  intros H. destruct (Qcle_lt_or_eq _ _ (Qcabs_nonneg x)) as [Hlt|Heq].
  - exact Hlt.
  - symmetry in Heq. apply Qcabs_null in Heq. contradiction.
Qed.

Lemma exit_cost_nonneg (bt : Backtester) (s : State) :
  0 <= transaction_cost_pct bt -> 0 <= exit_cost_of bt s.
Proof.
  intros H. unfold exit_cost_of.
  pose proof (Qcabs_nonneg (position_value s)) as Ha.
  revert Ha. generalize (Qcabs (position_value s)). intros a Ha.
  qc_unfold. nra.
Qed.

Lemma last_row_in (df : list Bar.t) (b : Bar.t) :
  last_row df = Some b -> In b df.
Proof.
  induction df as [|c df IH]; [discriminate|].
  cbn [last_row]. destruct df as [|d df].
  - intros [= ->]. now left.
  - intros H. right. now apply IH.
Qed.

Section Ledger.

Variable bt : Backtester.
Variable has_datetime : bool.
Variable df : list Bar.t.

Lemma ledger_realize (s : State) (b : Bar.t) (time : Time) (date : option Z) :
  In b df -> position s <> 0 -> ledger_from_rows bt df s ->
  Forall (trade_from_rows bt df)
    (trades (realize bt s (Bar.close b) time date)).
Proof.
  intros Hb Hpos [Htr Hfrom]. cbn [trades realize].
  apply Forall_app. split; [exact Htr|].
  constructor; [|constructor].
  destruct (Hfrom Hpos) as (b0 & Hb0 & Hp & He).
  unfold trade_from_rows.
  cbn [Trade.net_pnl Trade.pnl Trade.transaction_cost Trade.position_size
       Trade.position_type Trade.entry_price Trade.exit_price].
  split; [reflexivity|].
  split; [now apply Qcabs_positive|].
  split.
  { exists b0. rewrite Hp in *. repeat split; auto. }
  split; [now exists b|].
  apply exit_cost_nonneg.
Qed.

Lemma ledger_step (s : State) (i : nat) (b : Bar.t) :
  In b df -> ledger_from_rows bt df s ->
  ledger_from_rows bt df (step bt has_datetime s i b).
Proof.
  intros Hb Hs. unfold step, execute, settle, close_position.
  set (s0 := record_equity s (time_of has_datetime i b) b).
  assert (H0 : ledger_from_rows bt df s0) by exact Hs.
  destruct (Qc_neqb (Bar.signal b) (position s0)); [|exact H0].
  assert (Hopen : forall s', Forall (trade_from_rows bt df) (trades s') ->
            Bar.signal b <> 0 ->
            ledger_from_rows bt df
              (open_position bt s' (Bar.signal b) (Bar.close b)
                 (time_of has_datetime i b))).
  { intros s' Htr E. split; [exact Htr|]. intros _. exists b.
    cbn [position entry_price open_position]. auto. }
  assert (Hflat : forall s', Forall (trade_from_rows bt df) (trades s') ->
            ledger_from_rows bt df (reset_position s')).
  { intros s' Htr. split; [exact Htr|]. intros H. now elim H. }
  destruct (Qc_neqb (position s0) 0) eqn:E0.
  - apply Qc_neqb_true in E0.
    pose proof (ledger_realize s0 b (time_of has_datetime i b)
                  (day_of has_datetime b) Hb E0 H0) as Hr.
    destruct (Qc_neqb (Bar.signal b) 0) eqn:E;
      [apply Qc_neqb_true in E; apply Hopen; [exact Hr | exact E]
      | apply Hflat; exact Hr].
  - destruct (Qc_neqb (Bar.signal b) 0) eqn:E;
      [apply Qc_neqb_true in E; apply Hopen; [apply H0 | exact E]
      | exact H0].
Qed.

Lemma ledger_simulate :
  Forall (trade_from_rows bt df) (trades (simulate bt has_datetime df)).
Proof.
  unfold simulate, close_remaining.
  set (s := run_loop bt has_datetime (init_state bt) 0 df).
  assert (H : ledger_from_rows bt df s).
  { apply run_loop_invariant.
    - intros s' i b Hb. now apply ledger_step.
    - split; [constructor|]. intros H. now elim H. }
  destruct (Qc_neqb (position s) 0) eqn:E; [|apply H].
  destruct (last_row df) as [b|] eqn:El; [|apply H].
  apply Qc_neqb_true in E. apply ledger_realize; auto.
  now apply last_row_in.
Qed.

End Ledger.

(** X4.  Every trade of the ledger is consistent with itself and with the
    frame: its net profit is its gross profit less the cost it records; its
    size is positive and is the absolute signal of a row with a non-zero
    signal, whose sign gives the direction and whose price is the entry
    price; its exit price is the price of a row; and its cost is not
    negative when the cost rate is not. *)
Theorem X4_trade_records (bt : Backtester) (has_datetime : bool)
    (df : list Bar.t) (t : Trade.t) :
  In t (trades (simulate bt has_datetime df)) ->
  trade_from_rows bt df t.
Proof.
  intros Hin.
  pose proof (ledger_simulate bt has_datetime df) as H.
  rewrite Forall_forall in H. now apply H.
Qed.

Lemma X4_trade_records_witness :
  exists t,
    In t (trades (simulate sample_backtester true (sample_frame 0 1))) /\
    trade_from_rows sample_backtester (sample_frame 0 1) t.
Proof.
  assert (H : { t | In t (trades (simulate sample_backtester true
                                    (sample_frame 0 1))) })
    by (eexists; vm_compute; left; reflexivity).
  destruct H as [t Ht]. exists t. split; [exact Ht|].
  exact (X4_trade_records sample_backtester true (sample_frame 0 1) t Ht).
Defined.

(** ** The daily profits *)

Lemma dict_get_add_same (d : list (Z * Qc)) (k : Z) (v : Qc) :
  dict_get (dict_add d k v) k =
  Some (match dict_get d k with Some x => x + v | None => 0 + v end).
Proof.
  induction d as [|[k' x] d IH]; simpl.
  - now rewrite Z.eqb_refl.
  - destruct (Z.eqb k k') eqn:E; simpl; rewrite E; [reflexivity | exact IH].
Qed.

Lemma dict_get_add_other (d : list (Z * Qc)) (k k' : Z) (v : Qc) :
  k' <> k -> dict_get (dict_add d k v) k' = dict_get d k'.
Proof.
  intros Hne. induction d as [|[k0 x] d IH]; simpl.
  - apply Z.eqb_neq in Hne. now rewrite Hne.
  - destruct (Z.eqb k k0) eqn:E; simpl.
    + apply Z.eqb_eq in E. subst k0.
      apply Z.eqb_neq in Hne. now rewrite Hne.
    + now rewrite IH.
Qed.

Lemma dict_add_keys (d : list (Z * Qc)) (k : Z) (v : Qc) (k' : Z) :
  In k' (map fst (dict_add d k v)) <-> k' = k \/ In k' (map fst d).
Proof.
  induction d as [|[k0 x] d IH]; simpl.
  - intuition.
  - destruct (Z.eqb k k0) eqn:E; simpl.
    + apply Z.eqb_eq in E. subst k0. intuition.
    + rewrite IH. intuition.
Qed.

Lemma dict_add_NoDup (d : list (Z * Qc)) (k : Z) (v : Qc) :
  NoDup (map fst d) -> NoDup (map fst (dict_add d k v)).
Proof.
  induction d as [|[k0 x] d IH]; simpl; intros H.
  - constructor; [auto | constructor].
  - inversion H as [|? ? Hnin Hnd]; subst.
    destruct (Z.eqb k k0) eqn:E; simpl.
    + now constructor.
    + constructor; [|now apply IH].
      rewrite dict_add_keys. apply Z.eqb_neq in E. intuition.
Qed.

Lemma day_total_snoc (tr : list Trade.t) (t : Trade.t) (d : Z) :
  day_total (tr ++ [t]) d =
  if closed_on d t
  then Some (match day_total tr d with
             | Some x => x + Trade.net_pnl t
             | None => 0 + Trade.net_pnl t
             end)
  else day_total tr d.
Proof.
  unfold day_total. rewrite filter_app. cbn [filter].
  destruct (closed_on d t).
  - destruct (filter (closed_on d) tr) as [|t0 l].
    + reflexivity.
    + cbn [app]. f_equal.
      change (t0 :: l ++ [t]) with ((t0 :: l) ++ [t]).
      rewrite map_app. cbn [map]. rewrite Qc_sum_snoc. reflexivity.
  - now rewrite app_nil_r.
Qed.

Section Days.

Variable bt : Backtester.

Lemma days_realize (s : State) (price : Qc) (m : Z) :
  days_from_ledger s ->
  days_from_ledger
    (realize bt s price (Timestamp m) (Some (date_of m))).
Proof.
  intros [Hnd Hget]. split; cbn [daily_pnl trades realize].
  - now apply dict_add_NoDup.
  - intros d. rewrite day_total_snoc.
    unfold closed_on, exit_date. cbn [Trade.exit_time Trade.net_pnl].
    destruct (Z.eqb d (date_of m)) eqn:E.
    + apply Z.eqb_eq in E. subst d.
      now rewrite dict_get_add_same, Hget.
    + apply Z.eqb_neq in E. now rewrite dict_get_add_other, Hget.
Qed.

Lemma days_step (s : State) (i : nat) (b : Bar.t) :
  days_from_ledger s -> days_from_ledger (step bt true s i b).
Proof.
  intros Hs. unfold step, execute, settle, close_position.
  set (s0 := record_equity s (time_of true i b) b).
  assert (H0 : days_from_ledger s0) by exact Hs.
  pose proof (days_realize s0 (Bar.close b) (Bar.datetime b) H0) as Hr.
  destruct (Qc_neqb (Bar.signal b) (position s0)); [|exact H0].
  destruct (Qc_neqb (position s0) 0), (Qc_neqb (Bar.signal b) 0);
    first [exact Hr | exact H0].
Qed.

Lemma days_simulate (df : list Bar.t) :
  days_from_ledger (simulate bt true df).
Proof.
  unfold simulate, close_remaining.
  set (s := run_loop bt true (init_state bt) 0 df).
  assert (H : days_from_ledger s).
  { apply run_loop_invariant.
    - intros s' i b _. apply days_step.
    - split; [constructor | reflexivity]. }
  destruct (Qc_neqb (position s) 0); [|exact H].
  destruct (last_row df); [|exact H].
  now apply days_realize.
Qed.

Lemma no_days_step (s : State) (i : nat) (b : Bar.t) :
  daily_pnl s = [] -> daily_pnl (step bt false s i b) = [].
Proof.
  intros Hs. unfold step, execute, settle, close_position.
  cbn [position record_equity].
  destruct (Qc_neqb (Bar.signal b) (position s)); [|exact Hs].
  destruct (Qc_neqb (position s) 0), (Qc_neqb (Bar.signal b) 0);
    exact Hs.
Qed.

Lemma no_days_simulate (df : list Bar.t) :
  daily_pnl (simulate bt false df) = [].
Proof.
  unfold simulate, close_remaining.
  set (s := run_loop bt false (init_state bt) 0 df).
  assert (H : daily_pnl s = []).
  { apply (run_loop_invariant bt false (fun s => daily_pnl s = [])).
    - intros s' i b _. apply no_days_step.
    - reflexivity. }
  destruct (Qc_neqb (position s) 0); [|exact H].
  destruct (last_row df); exact H.
Qed.

End Days.

(** X5.  With the datetime column, the daily profits hold one entry for
    each calendar date on which a trade was closed and no entry for any
    other date, and the entry of a date is the sum of the net profits of
    the trades closed on it.  Without the datetime column no daily profit
    is recorded. *)
Theorem X5_daily_pnl_from_ledger (bt : Backtester) (df : list Bar.t) :
  NoDup (map fst (daily_pnl (simulate bt true df))) /\
  (forall d,
     dict_get (daily_pnl (simulate bt true df)) d =
     day_total (trades (simulate bt true df)) d) /\
  daily_pnl (simulate bt false df) = [].
Proof.
  destruct (days_simulate bt df) as [Hnd Hget].
  split; [exact Hnd|]. split; [exact Hget|].
  apply no_days_simulate.
Qed.

(** ** When a run raises *)

Lemma last_cons_shift {A : Type} (v : A) (r : list A) (d : A) :
  last (v :: r) d = last r v.
Proof.
  destruct r as [|w r]; [reflexivity|].
  change (last (v :: w :: r) d) with (last (w :: r) d).
  apply last_default_irrelevant.
Qed.

Lemma closes_from_open (r : list Qc) : forall pos : Qc,
  pos <> 0 ->
  (0 < closes pos r + (if Qc_neqb (last r pos) 0%Qc then 1 else 0))%nat.
Proof.
  induction r as [|w r IH]; intros pos Hpos.
  - simpl. apply Qc_neqb_true in Hpos. rewrite Hpos. lia.
  - cbn [closes]. rewrite last_cons_shift.
    destruct (Qc_neqb w pos) eqn:E.
    + apply Qc_neqb_true in Hpos. rewrite Hpos. simpl. lia.
    + apply Qc_neqb_false in E. subst w. simpl.
      apply IH. exact Hpos.
Qed.

Lemma closes_positive (signals : list Qc) : forall pos : Qc,
  Exists (fun v => v <> 0) signals ->
  (0 < closes pos signals
       + (if Qc_neqb (last signals pos) 0%Qc then 1 else 0))%nat.
Proof.
  induction signals as [|v r IH]; intros pos Hex.
  - inversion Hex.
  - cbn [closes]. rewrite last_cons_shift.
    inversion Hex as [? ? Hv|? ? Hr]; subst.
    + pose proof (closes_from_open r v Hv). lia.
    + pose proof (IH v Hr). lia.
Qed.

Lemma trade_count_positive (signals : list Qc) :
  Exists (fun v => v <> 0) signals -> (0 < trade_count signals)%nat.
Proof. intros H. unfold trade_count. now apply closes_positive. Qed.

Lemma Exists_frame (P : Bar.t -> Prop) (has_datetime : bool)
    (data : list Bar.t) :
  Exists P data -> Exists P (frame has_datetime data).
Proof.
  unfold frame. destruct has_datetime; [|auto].
  rewrite !Exists_exists. intros (b & Hin & Hb). exists b. split; [|exact Hb].
  eapply Permutation_in; [apply sort_values_perm | exact Hin].
Qed.

Lemma simulate_trades_nonempty (bt : Backtester) (has_datetime : bool)
    (df : list Bar.t) :
  Exists (fun b => Bar.signal b <> 0) df ->
  trades (simulate bt has_datetime df) <> [].
Proof.
  intros Hex Hnil. apply (f_equal (@length _)) in Hnil.
  rewrite simulate_trades_length in Hnil.
  assert (Hs : Exists (fun v => v <> 0) (map Bar.signal df)).
  { rewrite Exists_exists in *. destruct Hex as (b & Hin & Hb).
    exists (Bar.signal b). split; [now apply in_map | exact Hb]. }
  apply trade_count_positive in Hs. simpl in Hnil. lia.
Qed.

Section Untimed.

Variable bt : Backtester.

Lemma untimed_realize (s : State) (price : Qc) (i : nat) :
  Forall untimed_trade (trades s) ->
  Forall untimed_trade (trades (realize bt s price (RowIndex i) None)).
Proof.
  intros H. cbn [trades realize]. apply Forall_app. split; [exact H|].
  constructor; [|constructor]. now exists i.
Qed.

Lemma untimed_step (s : State) (i : nat) (b : Bar.t) :
  Forall untimed_trade (trades s) ->
  Forall untimed_trade (trades (step bt false s i b)).
Proof.
  intros Hs. unfold step, execute, settle, close_position.
  cbn [position record_equity time_of day_of].
  pose proof (untimed_realize
                (record_equity s (RowIndex i) b) (Bar.close b) i Hs) as Hr.
  destruct (Qc_neqb (Bar.signal b) (position s)); [|exact Hs].
  destruct (Qc_neqb (position s) 0), (Qc_neqb (Bar.signal b) 0);
    first [exact Hr | exact Hs].
Qed.

Lemma untimed_simulate (df : list Bar.t) :
  Forall untimed_trade (trades (simulate bt false df)).
Proof.
  unfold simulate, close_remaining.
  set (s := run_loop bt false (init_state bt) 0 df).
  assert (H : Forall untimed_trade (trades s)).
  { apply (run_loop_invariant bt false
             (fun s => Forall untimed_trade (trades s))).
    - intros s' i b _. apply untimed_step.
    - constructor. }
  destruct (Qc_neqb (position s) 0); [|exact H].
  destruct (last_row df); [|exact H].
  now apply untimed_realize.
Qed.

End Untimed.

Lemma hold_periods_untimed (t : Trade.t) (l : list Trade.t) :
  untimed_trade t -> hold_periods (t :: l) = Err AttributeError.
Proof.
  intros [i Hi]. cbn [hold_periods]. unfold hold_period. rewrite Hi.
  now destruct (Trade.entry_time t).
Qed.

(** X6.  What a run does, case by case.  Without the datetime column a
    frame with a non-zero signal raises [AttributeError] (line 212: the hold
    period of row numbers has no [.dt]).  A frame whose signals are all 0
    raises [ZeroDivisionError] when the initial capital is 0 (line 245).
    An empty frame raises [KeyError] when the initial capital is not 0
    (line 268).  In every other case a [Results] is returned. *)
Theorem X6_run_backtest_outcome (bt : Backtester) (has_datetime : bool)
    (data : list Bar.t) :
  (has_datetime = false ->
   Exists (fun b => Bar.signal b <> 0) data ->
   run_backtest bt has_datetime data = Err AttributeError) /\
  (Forall (fun b => Bar.signal b = 0) data ->
   initial_capital bt = 0 ->
   run_backtest bt has_datetime data = Err ZeroDivisionError) /\
  (data = [] -> initial_capital bt <> 0 ->
   run_backtest bt has_datetime data = Err KeyError) /\
  (data <> [] ->
   has_datetime = true \/ Forall (fun b => Bar.signal b = 0) data ->
   initial_capital bt <> 0 \/ Exists (fun b => Bar.signal b <> 0) data ->
   exists r, run_backtest bt has_datetime data = Ok r).
Proof.
  split; [|split; [|split]].
  - intros -> Hex. unfold run_backtest.
    set (s := simulate bt false (frame false data)).
    pose proof (simulate_trades_nonempty bt false (frame false data)
                  (Exists_frame _ false data Hex)) as Hne.
    pose proof (untimed_simulate bt (frame false data)) as Hun.
    fold s in Hne, Hun.
    unfold _calculate_statistics.
    destruct (trades s) as [|t l]; [contradiction|].
    inversion Hun as [|? ? Ht _]; subst.
    rewrite (hold_periods_untimed t l Ht). reflexivity.
  - intros Hall Hcap. unfold run_backtest.
    pose proof (simulate_flat bt has_datetime (frame has_datetime data)
                  (Forall_frame _ has_datetime data Hall))
      as (_ & _ & _ & _ & _ & Htr & _ & Htc).
    cbn [init_state trades transaction_costs] in Htr, Htc.
    unfold _calculate_statistics. rewrite Htr, Htc, Hcap.
    reflexivity.
  - intros -> Hcap. rewrite run_backtest_empty.
    destruct (Qc_eq_bool (initial_capital bt) 0) eqn:E; [|reflexivity].
    apply Qc_eq_bool_true in E. contradiction.
  - intros Hdata Htimed Hdiv. unfold run_backtest.
    apply calculate_statistics_ok.
    + destruct Htimed as [-> | Hall].
      * apply timed_simulate.
      * pose proof (simulate_flat bt has_datetime (frame has_datetime data)
                      (Forall_frame _ has_datetime data Hall))
          as (_ & _ & _ & _ & _ & Htr & _).
        rewrite Htr. constructor.
    + apply simulate_equity_curve_nonempty. now apply frame_nonempty.
    + destruct Hdiv as [H|Hex]; [now left | right].
      rewrite <- simulate_costs_empty.
      apply simulate_trades_nonempty. now apply Exists_frame.
Qed.

Lemma X6_run_backtest_outcome_witness :
  Exists (fun b => Bar.signal b <> 0) [single_long] /\
  run_backtest sample_backtester false [single_long] = Err AttributeError.
Proof.
  assert (H : Exists (fun b => Bar.signal b <> 0) [single_long])
    by (constructor; qc_neq).
  split; [exact H|].
  exact (proj1 (X6_run_backtest_outcome sample_backtester false
                  [single_long]) eq_refl H).
Defined.

(** ** The order of the supplied rows *)

Lemma key_injective (l : list Bar.t) (x y : Bar.t) :
  NoDup (map Bar.datetime l) -> In x l -> In y l ->
  Bar.datetime x = Bar.datetime y -> x = y.
Proof.
  induction l as [|a l IH]; intros Hnd Hx Hy Hk; [contradiction|].
  cbn [map] in Hnd. inversion Hnd as [|? ? Hnin Hnd']; subst.
  destruct Hx as [->|Hx], Hy as [->|Hy]; auto.
  - elim Hnin. rewrite Hk. now apply in_map.
  - elim Hnin. rewrite <- Hk. now apply in_map.
Qed.

(** Two ascending arrangements of rows with distinct timestamps are the
    same list. *)
Lemma sorted_perm_unique (l : list Bar.t) : forall l' : list Bar.t,
  StronglySorted (by_datetime Z.le) l ->
  StronglySorted (by_datetime Z.le) l' ->
  Permutation l l' -> NoDup (map Bar.datetime l) -> l = l'.
Proof.
  induction l as [|a l IH]; intros l' Hs Hs' Hp Hnd.
  - apply Permutation_nil in Hp. now subst.
  - destruct l' as [|a' l'].
    { apply Permutation_sym, Permutation_nil in Hp. discriminate. }
    inversion Hs as [|? ? Hsl Ha]; subst.
    inversion Hs' as [|? ? Hsl' Ha']; subst.
    assert (Heq : a = a').
    { assert (Hin1 : In a' (a :: l))
        by (eapply Permutation_in; [apply Permutation_sym; exact Hp
                                   | now left]).
      assert (Hin2 : In a (a' :: l'))
        by (eapply Permutation_in; [exact Hp | now left]).
      apply (key_injective (a :: l)); auto; [now left|].
      rewrite Forall_forall in Ha, Ha'. unfold by_datetime in Ha, Ha'.
      destruct Hin1 as [->|Hin1]; [reflexivity|].
      destruct Hin2 as [->|Hin2]; [reflexivity|].
      pose proof (Ha _ Hin1). pose proof (Ha' _ Hin2). lia. }
    subst a'. f_equal. apply IH; auto.
    + now apply Permutation_cons_inv in Hp.
    + cbn [map] in Hnd. now inversion Hnd.
Qed.

(** X7.  With the datetime column and distinct timestamps, the order in
    which the rows are supplied does not matter: two frames with the same
    rows give the same outcome, results or exception. *)
Theorem X7_row_order_irrelevant (bt : Backtester)
    (data data' : list Bar.t) :
  Permutation data data' ->
  NoDup (map Bar.datetime data) ->
  run_backtest bt true data = run_backtest bt true data'.
Proof.
  intros Hp Hnd.
  assert (Hs : sort_values data = sort_values data').
  { apply sorted_perm_unique.
    - apply sort_values_sorted.
    - apply sort_values_sorted.
    - rewrite <- (sort_values_perm data), <- (sort_values_perm data').
      exact Hp.
    - eapply Permutation_NoDup; [|exact Hnd].
      apply Permutation_map, sort_values_perm. }
  unfold run_backtest, frame. now rewrite Hs.
Qed.

Lemma X7_row_order_irrelevant_witness :
  Permutation reversed_frame (rev reversed_frame) /\
  NoDup (map Bar.datetime reversed_frame) /\
  run_backtest sample_backtester true reversed_frame =
  run_backtest sample_backtester true (rev reversed_frame).
Proof.
  assert (H1 : Permutation reversed_frame (rev reversed_frame))
    by apply Permutation_rev.
  assert (H2 : NoDup (map Bar.datetime reversed_frame)).
  { repeat constructor; simpl; intuition; discriminate. }
  split; [exact H1|]. split; [exact H2|].
  exact (X7_row_order_irrelevant sample_backtester _ _ H1 H2).
Defined.

(** ** The trade statistics of a returned [Results] *)

Lemma calculate_statistics_trade_fields (bt : Backtester)
    (final_capital : Qc) (tr : list Trade.t) (dp : list (Z * Qc))
    (ec : list Snapshot.t) (tc : list Qc) (sd ed : option Z)
    (r : Results.t) :
  _calculate_statistics bt final_capital tr dp ec tc sd ed = Ok r ->
  let net := map Trade.net_pnl tr in
  let won := filter (fun x => Qc_ltb 0 x) net in
  let lost := filter (fun x => Qc_ltb x 0) net in
  (Results.winning_trades r = length won /\
   Results.losing_trades r = length lost /\
   Results.win_rate r =
     (if (0 <? length tr)%nat
      then Qc_of_nat (length won) / Qc_of_nat (length tr) * qc 100 1
      else 0) /\
   Results.avg_winning_trade r =
     (if (0 <? length won)%nat then mean won else 0) /\
   Results.avg_losing_trade r =
     (if (0 <? length lost)%nat then mean lost else 0) /\
   Results.best_trade r =
     (if (0 <? length tr)%nat then Qc_maximum net else 0) /\
   Results.worst_trade r =
     (if (0 <? length tr)%nat then Qc_minimum net else 0)) /\
  (exists hs, hold_periods tr = Ok hs /\
     Results.avg_hold_seconds r =
       (if (0 <? length tr)%nat then mean hs else 0) /\
     Results.avg_hold_minutes r = Results.avg_hold_seconds r / qc 60 1) /\
  (Results.final_returns r =
     m_lift (fun q => q * qc 100 1)
       (np_div (final_capital - initial_capital bt) (initial_capital bt)) /\
   Results.annualized_returns r =
     (if Qc_ltb 0 (years_of (Results.n_days r))
      then m_lift
             (fun q => (q - 1) / years_of (Results.n_days r) * qc 100 1)
             (np_div final_capital (initial_capital bt))
      else Exact 0)).
Proof.
  intros H net won lost. subst net won lost.
  unfold _calculate_statistics, bind in H.
  destruct (hold_periods tr) as [hs|e] eqn:Hhs.
  2:{ destruct tr as [|t tr]; [discriminate Hhs|].
      cbn [length Nat.ltb Nat.leb] in H. discriminate H. }
  destruct (Qc_eq_bool (initial_capital bt) 0 && _);
    [destruct (0 <? length tr)%nat; discriminate|].
  destruct ec as [|snap ec];
    [destruct (0 <? length tr)%nat; discriminate|].
  assert (Hhold :
    (if (0 <? length tr)%nat then Ok (mean hs) else Ok 0) =
    Ok (if (0 <? length tr)%nat then mean hs else 0))
    by now destruct (0 <? length tr)%nat.
  rewrite Hhold in H. injection H as <-.
  cbn [Results.winning_trades Results.losing_trades Results.win_rate
       Results.avg_winning_trade Results.avg_losing_trade
       Results.best_trade Results.worst_trade Results.avg_hold_seconds
       Results.avg_hold_minutes Results.final_returns
       Results.annualized_returns Results.n_days].
  rewrite !length_map.
  split; [repeat split|]. split; [|split; reflexivity].
  exists hs. repeat split.
Qed.

(** ** Entry before exit *)

Section Chronology.

Variable bt : Backtester.

Lemma chron_realize (s : State) (price : Qc) (m tb : Z) (date : option Z) :
  (m <= tb)%Z -> position s <> 0 ->
  Forall chronological (trades s) -> entered_by m s ->
  Forall chronological (trades (realize bt s price (Timestamp tb) date)).
Proof.
  intros Hm Hpos Htr Hent. cbn [trades realize].
  apply Forall_app. split; [exact Htr|].
  constructor; [|constructor].
  destruct (Hent Hpos) as (a & Ha & Hle).
  unfold chronological. cbn [Trade.entry_time Trade.exit_time].
  rewrite Ha. lia.
Qed.

Lemma chron_step (s : State) (i : nat) (b : Bar.t) (m : Z) :
  (m <= Bar.datetime b)%Z ->
  Forall chronological (trades s) -> entered_by m s ->
  Forall chronological (trades (step bt true s i b)) /\
  entered_by (Bar.datetime b) (step bt true s i b).
Proof.
  intros Hm Htr Hent. unfold step, execute, settle, close_position.
  cbn [position record_equity time_of day_of].
  set (s0 := record_equity s (Timestamp (Bar.datetime b)) b).
  assert (Hkeep : entered_by (Bar.datetime b) s0).
  { intros Hpos. destruct (Hent Hpos) as (a & Ha & Hle).
    exists a. split; [exact Ha | lia]. }
  assert (Hopen : forall s', entered_by (Bar.datetime b)
            (open_position bt s' (Bar.signal b) (Bar.close b)
               (Timestamp (Bar.datetime b)))).
  { intros s' _. exists (Bar.datetime b). split; [reflexivity | lia]. }
  assert (Hflat : forall s', entered_by (Bar.datetime b)
                               (reset_position s')).
  { intros s' H. now elim H. }
  destruct (Qc_neqb (Bar.signal b) (position s)); [|now split].
  destruct (Qc_neqb (position s) 0) eqn:E0.
  - apply Qc_neqb_true in E0.
    pose proof (chron_realize s0 (Bar.close b) m (Bar.datetime b)
                  (Some (date_of (Bar.datetime b))) Hm E0 Htr Hent) as Hr.
    destruct (Qc_neqb (Bar.signal b) 0); split;
      first [exact Hr | apply Hopen | apply Hflat].
  - destruct (Qc_neqb (Bar.signal b) 0); split;
      first [exact Htr | apply Hopen | exact Hkeep].
Qed.

Lemma chron_loop (df : list Bar.t) : forall (s : State) (i : nat) (m : Z),
  StronglySorted (by_datetime Z.le) df ->
  Forall (fun b => (m <= Bar.datetime b)%Z) df ->
  Forall chronological (trades s) -> entered_by m s ->
  Forall chronological (trades (run_loop bt true s i df)) /\
  entered_by (last (map Bar.datetime df) m) (run_loop bt true s i df).
Proof.
  induction df as [|b df IH]; intros s i m Hs Hm Htr Hent.
  - now split.
  - inversion Hs as [|? ? Hs' Hb]; subst.
    inversion Hm as [|? ? Hmb Hm']; subst.
    destruct (chron_step s i b m Hmb Htr Hent) as [Htr1 Hent1].
    cbn [run_loop map]. rewrite last_cons_shift.
    apply IH; auto.
Qed.

End Chronology.

Lemma last_row_datetime (b : Bar.t) (rest : list Bar.t) (m : Z) :
  Bar.datetime (last rest b) = last (map Bar.datetime (b :: rest)) m.
Proof.
  cbn [map]. rewrite last_cons_shift.
  revert b. induction rest as [|c rest IH]; intros b; [reflexivity|].
  cbn [map]. rewrite !last_cons_shift. apply IH.
Qed.

Lemma chron_simulate (bt : Backtester) (df : list Bar.t) :
  StronglySorted (by_datetime Z.le) df ->
  Forall chronological (trades (simulate bt true df)).
Proof.
  intros Hs. unfold simulate, close_remaining.
  destruct df as [|b rest].
  - cbn [run_loop init_state position]. rewrite Qc_neqb_refl. constructor.
  - set (m := Bar.datetime b).
    destruct (chron_loop bt (b :: rest) (init_state bt) 0 m Hs)
      as [Htr Hent].
    + inversion Hs as [|? ? _ Hb]; subst. constructor; [subst m; lia|].
      eapply Forall_impl; [|exact Hb]. unfold by_datetime. auto.
    + constructor.
    + intros H. now elim H.
    + destruct (Qc_neqb (position _) 0) eqn:E; [|exact Htr].
      rewrite last_row_last. cbn [time_of].
      apply Qc_neqb_true in E.
      eapply chron_realize; [|exact E|exact Htr|exact Hent].
      rewrite (last_row_datetime b rest m). lia.
Qed.

Lemma Qc_of_Z_nonneg (z : Z) : (0 <= z)%Z -> 0 <= Qc_of_Z z.
Proof.
  intros H. unfold Qc_of_Z. qc_unfold.
  change 0%Q with (inject_Z 0). now rewrite <- Zle_Qle.
Qed.

Lemma Qc_sum_nonneg (l : list Qc) : Forall (fun x => 0 <= x) l -> 0 <= Qc_sum l.
Proof.
  induction l as [|x l IH] using rev_ind; intros H.
  - rewrite Qc_sum_nil. apply Qcle_refl.
  - apply Forall_app in H. destruct H as [Hl Hx].
    inversion Hx as [|? ? Hx0 _]; subst.
    rewrite Qc_sum_snoc. specialize (IH Hl).
    revert IH Hx0. generalize (Qc_sum l). intros a Ha Hx0.
    qc_unfold. lra.
Qed.

Lemma Qc_div_nonneg (a b : Qc) : 0 <= a -> 0 <= b -> 0 <= a / b.
Proof.
  intros Ha Hb. qc_unfold.
  pose proof (Qinv_le_0_compat _ Hb) as Hi.
  revert Hi. generalize (/ this b)%Q. intros ib Hi. nra.
Qed.

Lemma Qc_of_nat_nonneg (n : nat) : 0 <= Qc_of_nat n.
Proof.
  unfold Qc_of_nat. qc_unfold.
  change 0%Q with (inject_Z 0). rewrite <- Zle_Qle. lia.
Qed.

Lemma mean_nonneg (l : list Qc) : Forall (fun x => 0 <= x) l -> 0 <= mean l.
Proof.
  intros H. unfold mean. apply Qc_div_nonneg.
  - now apply Qc_sum_nonneg.
  - apply Qc_of_nat_nonneg.
Qed.

Lemma hold_periods_nonneg (tr : list Trade.t) : forall hs : list Qc,
  Forall chronological tr -> hold_periods tr = Ok hs ->
  Forall (fun x => 0 <= x) hs.
Proof.
  induction tr as [|t tr IH]; intros hs Hc Hh.
  - injection Hh as <-. constructor.
  - inversion Hc as [|? ? Ht Hc']; subst.
    cbn [hold_periods] in Hh. unfold bind, hold_period in Hh.
    unfold chronological in Ht.
    destruct (Trade.entry_time t) as [a|], (Trade.exit_time t) as [b|];
      try contradiction.
    destruct (hold_periods tr) as [hs'|]; [|discriminate].
    injection Hh as <-. constructor; [|now apply IH].
    apply Qc_of_Z_nonneg. lia.
Qed.

(** X8.  With the datetime column every trade of the ledger is left no
    earlier than it was entered, so that no hold period is negative and the
    average hold period of every returned [Results], in seconds and in
    minutes, is not negative. *)
Theorem X8_entry_before_exit (bt : Backtester) (data : list Bar.t) :
  Forall chronological (trades (simulate bt true (frame true data))) /\
  (forall r, run_backtest bt true data = Ok r ->
     Forall chronological (Results.trades_df r) /\
     0 <= Results.avg_hold_seconds r /\
     0 <= Results.avg_hold_minutes r).
Proof.
  assert (Hc : Forall chronological
                 (trades (simulate bt true (frame true data)))).
  { apply chron_simulate. apply sort_values_sorted. }
  split; [exact Hc|].
  intros r Hr.
  pose proof (run_backtest_fields _ _ _ _ Hr) as (_ & _ & _ & _ & Ht & _).
  unfold run_backtest in Hr.
  apply calculate_statistics_trade_fields in Hr.
  destruct Hr as (_ & (hs & Hhs & Hsec & Hmin) & _).
  assert (Hpos : 0 <= Results.avg_hold_seconds r).
  { rewrite Hsec. destruct (0 <? length _)%nat; [|apply Qcle_refl].
    apply mean_nonneg. eapply hold_periods_nonneg; [exact Hc | exact Hhs]. }
  split; [now rewrite Ht|]. split; [exact Hpos|].
  rewrite Hmin. apply Qc_div_nonneg; [exact Hpos | qc_le].
Qed.

Lemma X8_entry_before_exit_witness :
  exists r,
    run_backtest sample_backtester true reversed_frame = Ok r /\
    Forall chronological (Results.trades_df r) /\
    0 <= Results.avg_hold_seconds r.
Proof.
  assert (H : { r | run_backtest sample_backtester true reversed_frame
                    = Ok r })
    by (eexists; vm_compute; reflexivity).
  destruct H as [r Hr]. exists r. split; [exact Hr|].
  destruct (proj2 (X8_entry_before_exit sample_backtester reversed_frame)
              r Hr) as (H1 & H2 & _).
  split; [exact H1 | exact H2].
Defined.

(** ** A signal held from the first row to the last *)

Lemma held_run_books (bt : Backtester) (has_datetime : bool)
    (b : Bar.t) (rest : list Bar.t) :
  Bar.signal b <> 0 ->
  Forall (fun x => Bar.signal x = Bar.signal b) rest ->
  let sL := run_loop bt has_datetime (init_state bt) 0 (b :: rest) in
  position sL = Bar.signal b /\
  entry_price sL = Bar.close b /\
  position_value sL = initial_capital bt * Qcabs (Bar.signal b) /\
  capital sL =
    initial_capital bt
    - initial_capital bt * Qcabs (Bar.signal b) * transaction_cost_pct bt.
Proof.
  intros Hsig Hall sL.
  assert (Hheld : same_books (step bt has_datetime (init_state bt) 0 b) sL).
  { subst sL. cbn [run_loop]. apply run_loop_held.
    now rewrite step_position. }
  destruct Hheld as (Hc & Hp & Hep & _ & Hpv & _).
  rewrite step_init_opens in Hc, Hp, Hep, Hpv by exact Hsig.
  cbn [position entry_price position_value capital open_position
       record_equity init_state] in Hc, Hp, Hep, Hpv.
  auto.
Qed.

(** X9.  When one non-zero signal is held from the first row to the last,
    the final capital is the initial capital, less the entry cost, plus the
    notional value times the relative price move between the first and the
    last row (counted against the position when it is short), less the exit
    cost.  In particular a full long position without costs multiplies the
    capital by the ratio of the last price to the first. *)
Theorem X9_held_signal_final_capital (bt : Backtester) (has_datetime : bool)
    (b : Bar.t) (rest : list Bar.t) :
  Bar.signal b <> 0 ->
  Forall (fun x => Bar.signal x = Bar.signal b) rest ->
  0 < Bar.close b ->
  let final := capital (simulate bt has_datetime (b :: rest)) in
  let notional := initial_capital bt * Qcabs (Bar.signal b) in
  let move := Bar.close (last rest b) / Bar.close b - 1 in
  final =
    initial_capital bt - notional * transaction_cost_pct bt
    + (if Qc_ltb 0 (Bar.signal b) then notional * move
       else notional * - move)
    - Qcabs notional * transaction_cost_pct bt /\
  (transaction_cost_pct bt = 0 -> Bar.signal b = 1 ->
   final = initial_capital bt * (Bar.close (last rest b) / Bar.close b)).
Proof.
  intros Hsig Hall Hprice final notional move.
  assert (Hp0 : Bar.close b <> 0).
  { intros E. rewrite E in Hprice. now apply Qclt_not_eq in Hprice. }
  destruct (held_run_books bt has_datetime b rest Hsig Hall)
    as (Hp & Hep & Hpv & Hc).
  assert (Hfinal : final =
    initial_capital bt - notional * transaction_cost_pct bt
    + (if Qc_ltb 0 (Bar.signal b) then notional * move
       else notional * - move)
    - Qcabs notional * transaction_cost_pct bt).
  { subst final. unfold simulate, close_remaining.
    set (sL := run_loop bt has_datetime (init_state bt) 0 (b :: rest)) in *.
    assert (Hopen : Qc_neqb (position sL) 0 = true).
    { apply Qc_neqb_true. now rewrite Hp. }
    rewrite Hopen, last_row_last. cbn [capital realize].
    unfold position_pnl, exit_cost_of. rewrite Hp, Hep, Hpv, Hc.
    subst notional move.
    destruct (Qc_ltb 0 (Bar.signal b)); ring. }
  split; [exact Hfinal|].
  intros Hrate Hone. rewrite Hfinal. subst notional move.
  rewrite Hrate, Hone.
  assert (Habs : Qcabs 1 = 1) by (apply Qc_is_canon; reflexivity).
  assert (Hlt : Qc_ltb 0 1 = true) by (vm_compute; reflexivity).
  rewrite Habs, Hlt. field. exact Hp0.
Qed.

Lemma X9_held_signal_final_capital_witness :
  Bar.signal held_first <> 0 /\
  Forall (fun x => Bar.signal x = Bar.signal held_first) held_rest /\
  0 < Bar.close held_first /\
  capital (simulate sample_backtester true (held_first :: held_rest)) =
    initial_capital sample_backtester
    - initial_capital sample_backtester * Qcabs (Bar.signal held_first)
      * transaction_cost_pct sample_backtester
    + (if Qc_ltb 0 (Bar.signal held_first)
       then initial_capital sample_backtester
            * Qcabs (Bar.signal held_first)
            * (Bar.close (last held_rest held_first)
               / Bar.close held_first - 1)
       else initial_capital sample_backtester
            * Qcabs (Bar.signal held_first)
            * - (Bar.close (last held_rest held_first)
                 / Bar.close held_first - 1))
    - Qcabs (initial_capital sample_backtester
             * Qcabs (Bar.signal held_first))
      * transaction_cost_pct sample_backtester.
Proof.
  assert (H1 : Bar.signal held_first <> 0) by qc_neq.
  assert (H2 : Forall (fun x => Bar.signal x = Bar.signal held_first)
                 held_rest)
    by (repeat constructor).
  assert (H3 : 0 < Bar.close held_first) by qc_lt.
  split; [exact H1|]. split; [exact H2|]. split; [exact H3|].
  exact (proj1 (X9_held_signal_final_capital sample_backtester true
                  held_first held_rest H1 H2 H3)).
Defined.

(** ** A price that does not move *)


Section FlatPrice.

Variable bt : Backtester.
Variable has_datetime : bool.
Variable p : Qc.
Hypothesis p_nonzero : p <> 0.




End FlatPrice.



(** ** Bounds on the trade statistics *)

Lemma exclusive_filters (l : list Qc) :
  (length (filter (fun x => Qc_ltb 0 x) l)
   + length (filter (fun x => Qc_ltb x 0) l) <= length l)%nat.
Proof.
  induction l as [|x l IH]; [simpl; lia|].
  cbn [filter].
  destruct (Qc_ltb 0 x) eqn:E1, (Qc_ltb x 0) eqn:E2; simpl; try lia.
  apply Qc_ltb_true in E1, E2.
  elim (Qclt_not_le _ _ E1). now apply Qclt_le_weak.
Qed.

Lemma filter_length_le {A : Type} (f : A -> bool) (l : list A) :
  (length (filter f l) <= length l)%nat.
Proof.
  induction l as [|x l IH]; simpl; [lia|].
  destruct (f x); simpl; lia.
Qed.

Lemma ratio_percent_bounds (a b : nat) :
  (a <= b)%nat -> (0 < b)%nat ->
  0 <= Qc_of_nat a / Qc_of_nat b * qc 100 1 /\
  Qc_of_nat a / Qc_of_nat b * qc 100 1 <= qc 100 1.
Proof.
  intros Hab Hb. unfold Qc_of_nat, qc. qc_unfold.
  assert (Hm : (0 < inject_Z (Z.of_nat b))%Q).
  { change 0%Q with (inject_Z 0). rewrite <- Zlt_Qlt. lia. }
  assert (Ha : (inject_Z (Z.of_nat a) <= inject_Z (Z.of_nat b))%Q).
  { rewrite <- Zle_Qle. lia. }
  assert (Ha0 : (0 <= inject_Z (Z.of_nat a))%Q).
  { change 0%Q with (inject_Z 0). rewrite <- Zle_Qle. lia. }
  pose proof (Qinv_lt_0_compat _ Hm) as Hi.
  assert (Hmi : (inject_Z (Z.of_nat b) * / inject_Z (Z.of_nat b) == 1)%Q)
    by (apply Qmult_inv_r; lra).
  revert Hm Ha Ha0 Hi Hmi.
  generalize (/ inject_Z (Z.of_nat b))%Q (inject_Z (Z.of_nat b))
             (inject_Z (Z.of_nat a)).
  intros ib qb qa Hm Ha Ha0 Hi Hmi.
  assert (H100 : ((100 # 1) == 100)%Q) by reflexivity.
  split; nra.
Qed.

Lemma Qc_sum_nonpos (l : list Qc) : Forall (fun x => x <= 0) l -> Qc_sum l <= 0.
Proof.
  induction l as [|x l IH] using rev_ind; intros H.
  - rewrite Qc_sum_nil. apply Qcle_refl.
  - apply Forall_app in H. destruct H as [Hl Hx].
    inversion Hx as [|? ? Hx0 _]; subst.
    rewrite Qc_sum_snoc. specialize (IH Hl).
    revert IH Hx0. generalize (Qc_sum l). intros a Ha Hx0.
    qc_unfold. lra.
Qed.

Lemma mean_nonpos (l : list Qc) : Forall (fun x => x <= 0) l -> mean l <= 0.
Proof.
  intros H. unfold mean.
  pose proof (Qc_sum_nonpos l H) as Hs.
  pose proof (Qc_of_nat_nonneg (length l)) as Hn.
  revert Hs Hn. generalize (Qc_sum l) (Qc_of_nat (length l)).
  intros a b Ha Hb. qc_unfold.
  pose proof (Qinv_le_0_compat _ Hb) as Hi.
  revert Hi. generalize (/ this b)%Q. intros ib Hi. nra.
Qed.

(** X11.  In every returned [Results] the winning and the losing trades
    together are no more than the trades, the win rate lies between 0 and
    100, the average winning trade is not negative and the average losing
    trade is not positive. *)
Theorem X11_trade_statistics_bounds (bt : Backtester) (has_datetime : bool)
    (data : list Bar.t) (r : Results.t) :
  run_backtest bt has_datetime data = Ok r ->
  (Results.winning_trades r + Results.losing_trades r
   <= Results.total_trades r)%nat /\
  0 <= Results.win_rate r /\ Results.win_rate r <= qc 100 1 /\
  0 <= Results.avg_winning_trade r /\
  Results.avg_losing_trade r <= 0.
Proof.
  intros Hr.
  pose proof (run_backtest_fields _ _ _ _ Hr) as (_ & _ & _ & _ & _ & _ & Hn).
  unfold run_backtest in Hr.
  apply calculate_statistics_trade_fields in Hr.
  destruct Hr as ((Hw & Hl & Hrate & Hawin & Haloss & _) & _).
  set (tr := trades _) in *.
  set (net := map Trade.net_pnl tr) in *.
  assert (Hlen : length net = length tr) by apply length_map.
  split.
  { rewrite Hw, Hl, Hn, <- Hlen. apply exclusive_filters. }
  assert (Hbounds : 0 <= Results.win_rate r /\ Results.win_rate r <= qc 100 1).
  { rewrite Hrate. destruct (0 <? length tr)%nat eqn:E.
    - apply Nat.ltb_lt in E. apply ratio_percent_bounds; [|exact E].
      rewrite <- Hlen. apply filter_length_le.
    - split; [apply Qcle_refl | qc_le]. }
  destruct Hbounds as [Hb1 Hb2].
  split; [exact Hb1|]. split; [exact Hb2|]. split.
  - rewrite Hawin.
    destruct (0 <? length (filter (fun x => Qc_ltb 0 x) net))%nat;
      [|apply Qcle_refl].
    apply mean_nonneg. apply Forall_forall. intros x Hx.
    apply filter_In in Hx. destruct Hx as [_ Hx].
    apply Qc_ltb_true in Hx. now apply Qclt_le_weak.
  - rewrite Haloss.
    destruct (0 <? length (filter (fun x => Qc_ltb x 0) net))%nat;
      [|apply Qcle_refl].
    apply mean_nonpos. apply Forall_forall. intros x Hx.
    apply filter_In in Hx. destruct Hx as [_ Hx].
    apply Qc_ltb_true in Hx. now apply Qclt_le_weak.
Qed.

Lemma X11_trade_statistics_bounds_witness :
  exists r,
    run_backtest sample_backtester true (sample_frame 0 1) = Ok r /\
    0 <= Results.win_rate r /\ Results.win_rate r <= qc 100 1.
Proof.
  assert (H : { r | run_backtest sample_backtester true (sample_frame 0 1)
                    = Ok r })
    by (eexists; vm_compute; reflexivity).
  destruct H as [r Hr]. exists r. split; [exact Hr|].
  destruct (X11_trade_statistics_bounds sample_backtester true
              (sample_frame 0 1) r Hr) as (_ & H1 & H2 & _).
  split; [exact H1 | exact H2].
Defined.

(** ** Best and worst *)

Lemma Qc_max_bounds (x y : Qc) : x <= Qc_max x y /\ y <= Qc_max x y.
Proof.
  unfold Qc_max. destruct (Qc_ltb x y) eqn:E.
  - apply Qc_ltb_true in E. split; [now apply Qclt_le_weak | apply Qcle_refl].
  - split; [apply Qcle_refl|]. apply Qcnot_lt_le. intros H.
    apply Qc_ltb_true in H. congruence.
Qed.








(** ** The calendar span and the CAGR *)

Lemma fold_min_le (l : list Z) : forall a : Z, (fold_left Z.min l a <= a)%Z.
Proof.
  induction l as [|x l IH]; intros a; cbn [fold_left]; [lia|].
  specialize (IH (Z.min a x)). lia.
Qed.

Lemma fold_max_ge (l : list Z) : forall a : Z, (a <= fold_left Z.max l a)%Z.
Proof.
  induction l as [|x l IH]; intros a; cbn [fold_left]; [lia|].
  specialize (IH (Z.max a x)). lia.
Qed.

Lemma calendar_days_positive (l : list Z) (n : nat) :
  l <> [] -> (1 <= calendar_days (column_min l) (column_max l) n)%Z.
Proof.
  destruct l as [|x l]; [contradiction|]. intros _.
  cbn [column_min column_max calendar_days].
  pose proof (fold_min_le l x). pose proof (fold_max_ge l x).
  assert (0 <= (fold_left Z.max l x - fold_left Z.min l x) / 1440)%Z
    by (apply Z.div_pos; lia).
  lia.
Qed.

Lemma years_of_positive (n : Z) :
  (1 <= n)%Z -> Qc_ltb 0 (years_of n) = true.
Proof.
  intros H. apply Qc_ltb_true. unfold years_of, Qc_of_Z, qc. qc_unfold.
  assert (Hn : (0 < inject_Z n)%Q).
  { change 0%Q with (inject_Z 0). rewrite <- Zlt_Qlt. lia. }
  assert (Hd : (0 < 1461 # 4)%Q) by reflexivity.
  pose proof (Qinv_lt_0_compat _ Hd) as Hi.
  revert Hi. generalize (/ (1461 # 4))%Q. intros i Hi. nra.
Qed.

Lemma years_of_zero : Qc_ltb 0 (years_of 0) = false.
Proof. vm_compute. reflexivity. Qed.

(** X13.  In a [Results] returned with the datetime column, [n_days] is at
    least 1 (the whole days between the earliest and the latest timestamp,
    plus one), so the number of years is positive and the CAGR is the one
    the power formula gives, never the neutral 0 of line 258.  In a
    [Results] returned without the datetime column, [n_days], the CAGR and
    the annualized returns are all 0. *)
Theorem X13_calendar_span_and_cagr (bt : Backtester) (has_datetime : bool)
    (data : list Bar.t) (r : Results.t) :
  run_backtest bt has_datetime data = Ok r ->
  (has_datetime = true ->
   (1 <= Results.n_days r)%Z /\
   Results.cagr r =
     CagrOf (np_div (Results.final_capital r) (Results.initial_capital r))
       (years_of (Results.n_days r))) /\
  (has_datetime = false ->
   Results.n_days r = 0%Z /\
   Results.cagr r = Exact 0 /\
   Results.annualized_returns r = Exact 0).
Proof.
  intros Hr.
  assert (Hdata : data <> []).
  { intros ->. rewrite run_backtest_empty in Hr. discriminate Hr. }
  unfold run_backtest in Hr.
  pose proof (calculate_statistics_fields _ _ _ _ _ _ _ _ _ Hr)
    as ((Hi & Hf & _) & _ & (Hn & Hcagr & _)).
  apply calculate_statistics_trade_fields in Hr.
  destruct Hr as (_ & _ & (_ & Hann)).
  split.
  - intros ->.
    assert (Hpos : (1 <= Results.n_days r)%Z).
    { rewrite Hn. apply calendar_days_positive.
      intros E. apply map_eq_nil in E. revert E.
      now apply frame_nonempty. }
    split; [exact Hpos|].
    rewrite Hcagr, (years_of_positive _ Hpos), Hi, Hf. reflexivity.
  - intros ->.
    assert (Hzero : Results.n_days r = 0%Z).
    { rewrite Hn. cbn [column_min column_max calendar_days].
      now rewrite no_days_simulate. }
    split; [exact Hzero|].
    rewrite Hcagr, Hann, Hzero, years_of_zero. split; reflexivity.
Qed.

Lemma X13_calendar_span_and_cagr_witness :
  exists r,
    run_backtest sample_backtester true (sample_frame 0 1) = Ok r /\
    (1 <= Results.n_days r)%Z.
Proof.
  assert (H : { r | run_backtest sample_backtester true (sample_frame 0 1)
                    = Ok r })
    by (eexists; vm_compute; reflexivity).
  destruct H as [r Hr]. exists r. split; [exact Hr|].
  exact (proj1 (proj1 (X13_calendar_span_and_cagr sample_backtester true
                         (sample_frame 0 1) r Hr) eq_refl)).
Defined.

(** ** The maximum drawdown *)

Lemma drawdown_bounds (e m : Qc) :
  0 < e -> e <= m ->
  exists q, drawdown_of e m = Exact q /\ - qc 100 1 < q /\ q <= 0.
Proof.
  intros He Hle.
  assert (Hm : 0 < m) by (eapply Qclt_le_trans; eauto).
  assert (Hm0 : m <> 0).
  { intros E. rewrite E in Hm. now apply Qclt_not_eq in Hm. }
  unfold drawdown_of, np_div.
  assert (E : Qc_eq_bool m 0 = false).
  { destruct (Qc_eq_bool m 0) eqn:E; [|reflexivity].
    apply Qc_eq_bool_true in E. contradiction. }
  rewrite E. cbn [m_lift]. eexists. split; [reflexivity|].
  unfold qc. clear E Hm0. qc_unfold.
  assert (Hmq : (0 < this m)%Q) by lra.
  pose proof (Qinv_lt_0_compat _ Hmq) as Hi.
  assert (Hmi : (this m * / this m == 1)%Q) by (apply Qmult_inv_r; lra).
  revert Hi Hmi. generalize (/ this m)%Q. intros im Hi Hmi.
  assert (H100 : ((100 # 1) == 100)%Q) by reflexivity.
  split; nra.
Qed.

Lemma Qc_min_between (x y lo hi : Qc) :
  lo < x -> x <= hi -> lo < y -> y <= hi ->
  lo < Qc_min x y /\ Qc_min x y <= hi.
Proof. intros. unfold Qc_min. destruct (Qc_ltb y x); auto. Qed.

Lemma drawdown_fold (l : list Qc) : forall (m q0 : Qc),
  0 < m -> Forall (fun e => 0 < e) l ->
  - qc 100 1 < q0 -> q0 <= 0 ->
  exists q,
    fold_left m_min (zip_with drawdown_of l (cummax_from m l)) (Exact q0)
      = Exact q /\
    - qc 100 1 < q /\ q <= 0.
Proof.
  induction l as [|e l IH]; intros m q0 Hm Hall Hlo Hhi.
  - exists q0. simpl. auto.
  - inversion Hall as [|? ? He Hl]; subst.
    cbn [cummax_from zip_with fold_left].
    destruct (Qc_max_bounds m e) as [Hm1 He1].
    destruct (drawdown_bounds e (Qc_max m e) He He1) as (q1 & Hq1 & Hlo1 & Hhi1).
    rewrite Hq1. cbn [m_min].
    destruct (Qc_min_between q0 q1 _ _ Hlo Hhi Hlo1 Hhi1) as [Hlo2 Hhi2].
    apply IH; auto.
    eapply Qclt_le_trans; eauto.
Qed.

Lemma max_drawdown_positive_equity (l : list Qc) :
  l <> [] -> Forall (fun e => 0 < e) l ->
  exists q,
    m_minimum (zip_with drawdown_of l (cummax l)) = Exact q /\
    - qc 100 1 < q /\ q <= 0.
Proof.
  destruct l as [|e l]; [contradiction|]. intros _ Hall.
  inversion Hall as [|? ? He Hl]; subst.
  unfold m_minimum. cbn [cummax zip_with fold_left].
  destruct (drawdown_bounds e e He (Qcle_refl e)) as (q0 & Hq0 & Hlo & Hhi).
  rewrite Hq0. cbn [m_min].
  now apply drawdown_fold.
Qed.

(** X14.  In a returned [Results] whose equity is positive on every row,
    the maximum drawdown is a finite percentage, above -100 and at most 0;
    the Calmar ratio is the neutral 0 exactly when it is 0, and is
    [abs(cagr / max_drawdown)] otherwise. *)
Theorem X14_max_drawdown_range (bt : Backtester) (has_datetime : bool)
    (data : list Bar.t) (r : Results.t) :
  run_backtest bt has_datetime data = Ok r ->
  Forall (fun row => 0 < Snapshot.equity (EquityRow.snapshot row))
    (Results.equity_curve r) ->
  exists q,
    Results.max_drawdown r = Exact q /\
    - qc 100 1 < q /\ q <= 0 /\
    Results.calmar_ratio r =
      (if Qc_ltb q 0 then CalmarOf (Results.cagr r) (Exact q) else Exact 0).
Proof.
  intros Hr Hpos.
  assert (Hdata : data <> []).
  { intros ->. rewrite run_backtest_empty in Hr. discriminate Hr. }
  pose proof (run_backtest_fields _ _ _ _ Hr) as (_ & _ & _ & _ & _ & He & _).
  unfold run_backtest in Hr.
  pose proof (calculate_statistics_fields _ _ _ _ _ _ _ _ _ Hr)
    as (_ & _ & (_ & _ & _ & Hmdd & Hcalmar)).
  set (ec := equity_curve _) in *.
  destruct (max_drawdown_positive_equity (map Snapshot.equity ec))
    as (q & Hq & Hlo & Hhi).
  - intros E. apply map_eq_nil in E. revert E. subst ec.
    apply simulate_equity_curve_nonempty. now apply frame_nonempty.
  - rewrite <- He, map_map. rewrite Forall_forall in *.
    intros x Hx. apply in_map_iff in Hx. destruct Hx as (row & <- & Hrow).
    now apply Hpos.
  - exists q. rewrite Hcalmar, Hmdd, Hq. cbn [m_negative]. auto.
Qed.

Lemma X14_max_drawdown_range_witness :
  exists r q,
    run_backtest sample_backtester true (sample_frame 0 1) = Ok r /\
    Forall (fun row => 0 < Snapshot.equity (EquityRow.snapshot row))
      (Results.equity_curve r) /\
    Results.max_drawdown r = Exact q /\ q <= 0.
Proof.
  assert (H : { r | run_backtest sample_backtester true (sample_frame 0 1)
                    = Ok r /\
                    Forall (fun row =>
                              0 < Snapshot.equity (EquityRow.snapshot row))
                      (Results.equity_curve r) }).
  { eexists. split; [vm_compute; reflexivity|].
    repeat constructor; qc_lt. }
  destruct H as [r [Hr Hpos]].
  destruct (X14_max_drawdown_range sample_backtester true
              (sample_frame 0 1) r Hr Hpos) as (q & Hq & _ & Hle & _).
  exists r, q. auto.
Defined.

(** ** The Sharpe ratio of short frames *)

Lemma observed_length (has_datetime : bool) (df : list Bar.t) :
  forall i, length (observed has_datetime i df) = length df.
Proof. induction df; intros i; simpl; auto. Qed.

Lemma simulate_equity_shape (bt : Backtester) (has_datetime : bool)
    (b : Bar.t) (rest : list Bar.t) :
  exists tl,
    map Snapshot.equity
      (equity_curve (simulate bt has_datetime (b :: rest)))
    = initial_capital bt :: tl /\
    length tl = length rest.
Proof.
  pose proof (simulate_equity_curve bt has_datetime (b :: rest)) as Hseen.
  apply (f_equal (@length _)) in Hseen.
  rewrite length_map, observed_length in Hseen.
  unfold simulate in *. rewrite close_remaining_equity_curve in *.
  cbn [run_loop] in *.
  destruct (run_loop_equity_prefix bt has_datetime rest
              (step bt has_datetime (init_state bt) 0 b) 1) as [tl Htl].
  rewrite Htl in *. rewrite step_equity_curve in *.
  cbn [equity_curve init_state app map length] in *.
  unfold current_equity. cbn [position init_state capital].
  rewrite Qc_neqb_refl. exists (map Snapshot.equity tl).
  split; [reflexivity|]. rewrite length_map. lia.
Qed.

(** X15.  A [Results] returned for a frame of one row has a Sharpe ratio of
    0: there is no return.  A [Results] returned for a frame of two rows,
    the initial capital not being 0, has a Sharpe ratio of [nan] whatever
    the prices and signals: there is one return and its standard deviation
    is [nan], which the test of line 271 lets through. *)
Theorem X15_sharpe_of_short_frames (bt : Backtester) (has_datetime : bool)
    (data : list Bar.t) (r : Results.t) :
  run_backtest bt has_datetime data = Ok r ->
  (length data = 1%nat -> Results.sharpe_ratio r = Exact 0) /\
  (length data = 2%nat -> initial_capital bt <> 0 ->
   Results.sharpe_ratio r = NaN).
Proof.
  intros Hr. unfold run_backtest in Hr.
  pose proof (calculate_statistics_fields _ _ _ _ _ _ _ _ _ Hr)
    as (_ & _ & (_ & _ & Hsharpe & _)).
  assert (Hlen : length (frame has_datetime data) = length data).
  { unfold frame. destruct has_datetime; [apply sort_values_length|auto]. }
  destruct (frame has_datetime data) as [|b rest] eqn:Ef.
  { split; intros H; rewrite <- Hlen in H; discriminate H. }
  destruct (simulate_equity_shape bt has_datetime b rest)
    as (tl & Heq & Htl).
  rewrite Heq in Hsharpe. split.
  - intros H1. rewrite <- Hlen in H1. cbn [length] in H1.
    destruct tl as [|e1 tl]; [|simpl in Htl; lia].
    rewrite Hsharpe. reflexivity.
  - intros H2 Hcap. rewrite <- Hlen in H2. cbn [length] in H2.
    destruct tl as [|e1 [|e2 tl]]; [simpl in Htl; lia| |simpl in Htl; lia].
    rewrite Hsharpe. cbn [pct_change pct_change_from].
    unfold np_div.
    assert (E : Qc_eq_bool (initial_capital bt) 0 = false).
    { destruct (Qc_eq_bool (initial_capital bt) 0) eqn:E; [|reflexivity].
      apply Qc_eq_bool_true in E. contradiction. }
    rewrite E. reflexivity.
Qed.

Lemma X15_sharpe_of_short_frames_witness :
  exists r,
    run_backtest sample_backtester true (sample_frame 0 1) = Ok r /\
    length (sample_frame 0 1) = 2%nat /\
    initial_capital sample_backtester <> 0 /\
    Results.sharpe_ratio r = NaN.
Proof.
  assert (H : { r | run_backtest sample_backtester true (sample_frame 0 1)
                    = Ok r })
    by (eexists; vm_compute; reflexivity).
  destruct H as [r Hr]. exists r. split; [exact Hr|].
  split; [reflexivity|]. split; [exact sample_capital_nonzero|].
  exact (proj2 (X15_sharpe_of_short_frames sample_backtester true
                  (sample_frame 0 1) r Hr) eq_refl sample_capital_nonzero).
Defined.

(** ** The run of the test script *)

Lemma sample_rows_signals (start : Z) (prices : list Qc) : forall i : nat,
  map Bar.signal (sample_rows start i prices) =
  map sample_signal (seq i (length prices)).
Proof.
  induction prices as [|price rest IH]; intros i; [reflexivity|].
  cbn [sample_rows map length seq]. now rewrite IH.
Qed.

Lemma sample_rows_later (start : Z) (prices : list Qc) : forall (i j : nat),
  (i < j)%nat ->
  Forall (fun b => (start + Z.of_nat i < Bar.datetime b)%Z)
    (sample_rows start j prices).
Proof.
  induction prices as [|price rest IH]; intros i j Hij; [constructor|].
  cbn [sample_rows]. constructor; [cbn [Bar.datetime]; lia|].
  apply IH. lia.
Qed.

Lemma sample_rows_ascending (start : Z) (prices : list Qc) : forall i : nat,
  StronglySorted (by_datetime Z.lt) (sample_rows start i prices).
Proof.
  induction prices as [|price rest IH]; intros i; [constructor|].
  cbn [sample_rows]. constructor; [apply IH|].
  unfold by_datetime. cbn [Bar.datetime].
  apply sample_rows_later. lia.
Qed.

Lemma sample_trade_count :
  trade_count (map sample_signal (seq 0 n_bars)) = 28%nat.
Proof. vm_compute. reflexivity. Qed.

(** X16.  On the sample data of the test script, a thousand one-minute
    bars with the signal schedule of lines 32-43, the rows are already in
    timestamp order and every run that returns has exactly 28 trades,
    whatever the random prices; a run returns whenever the initial capital
    is not 0. *)
Theorem X16_sample_data_trades (bt : Backtester) (start : Z)
    (prices : list Qc) :
  length prices = n_bars ->
  frame true (sample_data start prices) = sample_data start prices /\
  (forall r, run_backtest bt true (sample_data start prices) = Ok r ->
     Results.total_trades r = 28%nat) /\
  (initial_capital bt <> 0 ->
   exists r, run_backtest bt true (sample_data start prices) = Ok r).
Proof.
  intros Hlen.
  assert (Hframe : frame true (sample_data start prices)
                   = sample_data start prices).
  { unfold frame. apply sort_values_ascending, sample_rows_ascending. }
  split; [exact Hframe|]. split.
  - intros r Hr. apply run_backtest_fields in Hr.
    destruct Hr as (_ & _ & _ & _ & _ & _ & Hn).
    rewrite Hn, Hframe, simulate_trades_length.
    unfold sample_data. rewrite sample_rows_signals, Hlen.
    apply sample_trade_count.
  - intros Hcap. apply run_backtest_returns; [|exact Hcap].
    destruct prices; [discriminate Hlen | discriminate].
Qed.

Lemma X16_sample_data_trades_witness :
  length (repeat (qc 21500 1) n_bars) = n_bars /\
  initial_capital sample_backtester <> 0 /\
  exists r,
    run_backtest sample_backtester true
      (sample_data 0 (repeat (qc 21500 1) n_bars)) = Ok r /\
    Results.total_trades r = 28%nat.
Proof.
  assert (H1 : length (repeat (qc 21500 1) n_bars) = n_bars)
    by apply repeat_length.
  split; [exact H1|]. split; [exact sample_capital_nonzero|].
  destruct (X16_sample_data_trades sample_backtester 0
              (repeat (qc 21500 1) n_bars) H1) as (_ & Hcount & Hex).
  destruct (Hex sample_capital_nonzero) as [r Hr].
  exists r. split; [exact Hr | exact (Hcount r Hr)].
Defined.

(** ** Long positions within the capital *)

Lemma solvent_close (c pv r x : Qc) :
  0 <= r -> 0 < pv -> pv * (1 + r) <= c -> 0 < x ->
  0 < c + (pv * (x - 1) - pv * r) /\ 0 < c + pv * (x - 1).
Proof.
  intros Hr Hpv Hc Hx. qc_unfold.
  assert (H1 : (0 < this pv * this x)%Q) by nra.
  assert (H2 : (0 <= this pv * this r)%Q) by nra.
  split; nra.
Qed.

Lemma solvent_open (c v r : Qc) :
  0 < c -> 0 < v -> 0 <= r -> v * (1 + (1 + 1) * r) <= 1 ->
  0 < c * v /\ 0 < c - c * v * r /\ c * v * (1 + r) <= c - c * v * r.
Proof.
  intros Hc Hv Hr Hsz. qc_unfold.
  assert (H0 : (0 <= this v * this r)%Q) by nra.
  assert (H1 : (0 <= 1 - this v - 2 * (this v * this r))%Q) by nra.
  assert (H2 : (0 <= this c * (1 - this v - 2 * (this v * this r)))%Q)
    by nra.
  assert (H3 : (0 < this c * this v)%Q) by nra.
  assert (H4 : (0 <= this c * (this v * this r))%Q) by nra.
  repeat split; nra.
Qed.

Lemma Qc_div_pos (a b : Qc) : 0 < a -> 0 < b -> 0 < a / b.
Proof.
  intros Ha Hb. qc_unfold.
  pose proof (Qinv_lt_0_compat _ Hb) as Hi.
  revert Hi. generalize (/ this b)%Q. intros ib Hi. nra.
Qed.

Section Solvency.

Variable bt : Backtester.
Variable has_datetime : bool.
Hypothesis rate_nonneg : 0 <= transaction_cost_pct bt.

(** The profit and the capital when a covered long position is marked or
    closed at a positive price. *)
Lemma solvent_marked (s : State) (price : Qc) :
  solvent bt s -> position s <> 0 -> 0 < price ->
  0 < capital s + (position_pnl s price - exit_cost_of bt s) /\
  0 < capital s + position_pnl s price.
Proof.
  intros (Hc & _ & Hopen) Hpos Hprice.
  destruct (Hopen Hpos) as (Hp & Hpv & Hep & Hcov).
  unfold position_pnl, exit_cost_of.
  apply Qc_ltb_true in Hp. rewrite Hp.
  rewrite (Qcabs_pos (position_value s)) by now apply Qclt_le_weak.
  apply solvent_close; auto. now apply Qc_div_pos.
Qed.

Lemma solvent_record (s : State) (time : Time) (b : Bar.t) :
  sized bt b -> solvent bt s -> solvent bt (record_equity s time b).
Proof.
  intros (Hprice & _) Hs. pose proof Hs as (Hc & Heq & Hopen).
  split; [exact Hc|]. split; [|exact Hopen].
  cbn [equity_curve record_equity]. apply Forall_app. split; [exact Heq|].
  constructor; [|constructor]. cbn [Snapshot.equity].
  unfold current_equity. destruct (Qc_neqb (position s) 0) eqn:E.
  - apply Qc_neqb_true in E. now apply solvent_marked.
  - exact Hc.
Qed.

Lemma solvent_step (s : State) (i : nat) (b : Bar.t) :
  sized bt b -> solvent bt s -> solvent bt (step bt has_datetime s i b).
Proof.
  intros Hb Hs. unfold step, execute.
  pose proof (solvent_record s (time_of has_datetime i b) b Hb Hs) as H0.
  set (s0 := record_equity s (time_of has_datetime i b) b) in *.
  destruct Hb as (Hprice & Hsig & Hsz).
  destruct (Qc_neqb (Bar.signal b) (position s0)); [|exact H0].
  assert (H1 : 0 < capital (settle bt has_datetime s0 i b) /\
               Forall (fun e => 0 < Snapshot.equity e)
                 (equity_curve (settle bt has_datetime s0 i b)) /\
               position (settle bt has_datetime s0 i b) = 0).
  { unfold settle, close_position.
    destruct (Qc_neqb (position s0) 0) eqn:E.
    - apply Qc_neqb_true in E.
      cbn [capital equity_curve position reset_position realize].
      split; [now apply solvent_marked|]. split; [apply H0 | reflexivity].
    - apply Qc_neqb_false in E. split; [apply H0|]. split; [apply H0|exact E]. }
  destruct H1 as (Hc1 & Heq1 & Hp1).
  destruct (Qc_neqb (Bar.signal b) 0) eqn:E.
  - apply Qc_neqb_true in E.
    assert (Hv : 0 < Bar.signal b).
    { destruct (Qcle_lt_or_eq _ _ Hsig) as [H|H]; [exact H|].
      symmetry in H. contradiction. }
    destruct (solvent_open _ _ _ Hc1 Hv rate_nonneg Hsz) as (Hn & Hcap & Hcov).
    unfold solvent.
    cbn [capital equity_curve position position_value entry_price
         open_position].
    rewrite (Qcabs_pos (Bar.signal b)) by exact Hsig.
    split; [exact Hcap|]. split; [exact Heq1|]. intros _.
    repeat split; auto.
  - split; [exact Hc1|]. split; [exact Heq1|].
    intros H. contradiction.
Qed.

Lemma solvent_simulate (df : list Bar.t) :
  0 < initial_capital bt -> Forall (sized bt) df ->
  0 < capital (simulate bt has_datetime df) /\
  Forall (fun e => 0 < Snapshot.equity e)
    (equity_curve (simulate bt has_datetime df)).
Proof.
  intros Hcap Hall. unfold simulate, close_remaining.
  set (s := run_loop bt has_datetime (init_state bt) 0 df).
  assert (H : solvent bt s).
  { apply run_loop_invariant.
    - intros s' i b Hin. apply solvent_step.
      rewrite Forall_forall in Hall. now apply Hall.
    - split; [exact Hcap|]. split; [constructor|].
      intros H. now elim H. }
  destruct (Qc_neqb (position s) 0) eqn:E;
    [|split; [apply H | apply H]].
  destruct (last_row df) as [b|] eqn:El; [|split; [apply H | apply H]].
  apply Qc_neqb_true in E.
  assert (Hprice : 0 < Bar.close b).
  { rewrite Forall_forall in Hall. apply (Hall b). now apply last_row_in. }
  cbn [capital equity_curve realize]. split; [|apply H].
  now apply solvent_marked.
Qed.

End Solvency.

(** X17.  Let the cost rate be non-negative, the initial capital positive,
    every price positive and every signal [v] long with
    [v * (1 + 2 * rate) <= 1].  Then the equity is positive on every row
    and the final capital is positive: such a strategy cannot be wiped out.
    Every returned [Results] then has a positive final capital and a
    maximum drawdown that is a finite percentage above -100 and at
    most 0. *)
Theorem X17_covered_long_stays_solvent (bt : Backtester)
    (has_datetime : bool) (data : list Bar.t) :
  0 <= transaction_cost_pct bt ->
  0 < initial_capital bt ->
  Forall (sized bt) data ->
  let s := simulate bt has_datetime (frame has_datetime data) in
  0 < capital s /\
  Forall (fun e => 0 < Snapshot.equity e) (equity_curve s) /\
  (forall r, run_backtest bt has_datetime data = Ok r ->
     0 < Results.final_capital r /\
     exists q, Results.max_drawdown r = Exact q /\
               - qc 100 1 < q /\ q <= 0).
Proof.
  intros Hrate Hcap Hall s.
  destruct (solvent_simulate bt has_datetime Hrate
              (frame has_datetime data) Hcap
              (Forall_frame _ has_datetime data Hall)) as [Hc Heq].
  fold s in Hc, Heq.
  split; [exact Hc|]. split; [exact Heq|].
  intros r Hr.
  assert (Hdata : data <> []).
  { intros ->. rewrite run_backtest_empty in Hr. discriminate Hr. }
  pose proof (run_backtest_fields _ _ _ _ Hr) as (_ & Hf & _).
  fold s in Hf. split; [now rewrite Hf|].
  unfold run_backtest in Hr. fold s in Hr.
  pose proof (calculate_statistics_fields _ _ _ _ _ _ _ _ _ Hr)
    as (_ & _ & (_ & _ & _ & Hmdd & _)).
  rewrite Hmdd. apply max_drawdown_positive_equity.
  - intros E. apply map_eq_nil in E. revert E. subst s.
    apply simulate_equity_curve_nonempty. now apply frame_nonempty.
  - rewrite Forall_forall in *. intros x Hx.
    apply in_map_iff in Hx. destruct Hx as (e & <- & He). now apply Heq.
Qed.

Lemma X17_covered_long_stays_solvent_witness :
  0 <= transaction_cost_pct sample_backtester /\
  0 < initial_capital sample_backtester /\
  Forall (sized sample_backtester) half_long_frame /\
  0 < capital (simulate sample_backtester true (frame true half_long_frame)).
Proof.
  assert (H1 : 0 <= transaction_cost_pct sample_backtester) by qc_le.
  assert (H2 : 0 < initial_capital sample_backtester) by qc_lt.
  assert (H3 : Forall (sized sample_backtester) half_long_frame).
  { repeat constructor; simpl; first [qc_lt | qc_le]. }
  split; [exact H1|]. split; [exact H2|]. split; [exact H3|].
  exact (proj1 (X17_covered_long_stays_solvent sample_backtester true
                  half_long_frame H1 H2 H3)).
Defined.
